(** * PinMeTo location MCP server: credential cache and paginated fetch

    A shallow embedding of [src/helpers/token.py], [src/helpers/helpers.py]
    and the [get_locations] tool of [src/main.py].

    Python values that travel through the program are the values produced
    by decoding JSON.  The process state (module globals, [os.environ], the
    record of outbound HTTP calls and of log records) is threaded
    explicitly; the remote side (authorization endpoint, listing API, wall
    clock) is a fixed oracle.  The [while] loop of the paginated fetch is
    run with fuel, so that a cyclic chain of next links shows up as the
    absence of a result.  One flow of control is modelled: coroutines of
    other tasks do not interleave at the [await] points. *)

From Stdlib Require Import ZArith Lia Ascii.
From stdpp Require Import base strings list gmap.

Local Open Scope string_scope.

(** ** Python values *)

(** The result of [response.json()]: [None], [bool], [int], [float]
    (mantissa and binary exponent), [str], [list] and [dict].  A [dict] is
    kept as its items in insertion order; its keys are pairwise distinct. *)
#[warnings="-register-all"]
Inductive pyval : Type :=
| PNone
| PBool (b : bool)
| PInt (n : Z)
| PFloat (m e : Z)
| PStr (s : string)
| PList (l : list pyval)
| PDict (kvs : list (string * pyval)).

(** Exceptions the three modules can raise or meet. *)
Inductive exn : Type :=
| EnvironmentError            (* raised by hand in [_fetch_and_store_token] *)
| KeyError                    (* raised by hand in [_fetch_and_store_token] *)
| HTTPStatusError (status : Z) (* [response.raise_for_status()] *)
| TimeoutException            (* httpx: the 30 s timeout elapsed *)
| NetworkError                (* httpx: any other transport failure *)
| JSONDecodeError             (* [response.json()] on a malformed body *)
| AttributeError              (* [.get] on a value that is not a dict *)
| TypeError                   (* iteration of a non-iterable, bad argument type *)
| NameError.                  (* read of a global that was never assigned *)

Inductive outcome (A : Type) : Type :=
| Ret (a : A)
| Raise (e : exn).
Arguments Ret {A} a.
Arguments Raise {A} e.

(** [bool(v)] *)
Definition truthy (v : pyval) : bool :=
  match v with
  | PNone => false
  | PBool b => b
  | PInt n => negb (n =? 0)%Z
  | PFloat m _ => negb (m =? 0)%Z
  | PStr s => match s with EmptyString => false | String _ _ => true end
  | PList l => match l with [] => false | _ :: _ => true end
  | PDict kvs => match kvs with [] => false | _ :: _ => true end
  end.

(** [bool(s)] for a [str] and for a value that is a [str] or [None]. *)
Definition str_truthy (s : string) : bool := truthy (PStr s).

Definition opt_truthy (o : option string) : bool :=
  match o with
  | None => false
  | Some s => str_truthy s
  end.

(** [f"{x}"] where [x] is a [str] or [None]. *)
Definition fstr (o : option string) : string :=
  match o with
  | None => "None"
  | Some s => s
  end.

Fixpoint dict_lookup (k : string) (kvs : list (string * pyval)) : option pyval :=
  match kvs with
  | [] => None
  | (k', v) :: rest => if String.eqb k k' then Some v else dict_lookup k rest
  end.

(** [v.get(k, dflt)]: defined on a dict only. *)
Definition py_get (v : pyval) (k : string) (dflt : pyval) : outcome pyval :=
  match v with
  | PDict kvs => Ret (default dflt (dict_lookup k kvs))
  | _ => Raise AttributeError
  end.

(** The elements [list.extend(v)] appends: a list gives its items, a dict
    its keys, a string its characters; anything else is not iterable. *)
Definition py_iter (v : pyval) : outcome (list pyval) :=
  match v with
  | PList l => Ret l
  | PDict kvs => Ret (map (fun kv => PStr (fst kv)) kvs)
  | PStr s => Ret (map (fun c => PStr (String c EmptyString)) (String.list_ascii_of_string s))
  | _ => Raise TypeError
  end.

(** [s * n] *)
Fixpoint str_mul (s : string) (n : nat) : string :=
  match n with
  | O => ""
  | S n' => s +:+ str_mul s n'
  end.

Definition nl : string := String (Ascii.ascii_of_nat 10) EmptyString.

(** ** The remote side and the process state *)

Inductive transport_failure : Type := TimedOut | Unreachable.

Definition exn_of_failure (f : transport_failure) : exn :=
  match f with
  | TimedOut => TimeoutException
  | Unreachable => NetworkError
  end.

(** What an HTTP call meets: no reply at all, or a status line with a body
    that decodes as JSON ([Some]) or does not ([None]). *)
Inductive http_reply : Type :=
| NoReply (f : transport_failure)
| Reply (status : Z) (body : option pyval).

Definition headers := list (string * string).

(** The world outside the process: the reply to each POST (address,
    headers, form fields) and GET (address, headers), and the successive
    readings of [time.time()], in whole seconds (the fraction of a second
    plays no part in the comparison with the 59 minutes). *)
Record Remote : Type := {
  http_post : string -> headers -> list (string * string) -> http_reply;
  http_get : string -> headers -> http_reply;
  time_time : nat -> Z
}.

Inductive http_call : Type :=
| POST (url : string) (h : headers) (data : list (string * string))
| GET (url : string) (h : headers).

Inductive log_record : Type :=
| LogEnvNotSet                (* logging.error, token.py *)
| LogRequestFailed (e : exn)  (* logging.error, helpers.py *)
| LogPagesMissing.            (* logging.warning, helpers.py *)

Record World : Type := {
  environ : gmap string string;      (* os.environ *)
  _cached_token : option string;     (* token.py global *)
  _cached_token_time : Z;            (* token.py global *)
  __PMT_API_URL : option string;       (* main.py global *)
  __ACCOUNT_ID : option string;        (* main.py global *)
  PMT_API_URL_is_bound : bool;         (* [__PMT_API_URL] has been assigned *)
  ACCOUNT_ID_is_bound : bool;          (* [__ACCOUNT_ID] has been assigned *)
  clock_reads : nat;                 (* calls of time.time() so far *)
  http_calls : list http_call;       (* outbound calls, oldest first *)
  log_records : list log_record      (* log records, oldest first *)
}.

Definition tick (w : World) : World :=
  {| environ := environ w; _cached_token := _cached_token w;
     _cached_token_time := _cached_token_time w;
     __PMT_API_URL := __PMT_API_URL w; __ACCOUNT_ID := __ACCOUNT_ID w;
     PMT_API_URL_is_bound := PMT_API_URL_is_bound w;
     ACCOUNT_ID_is_bound := ACCOUNT_ID_is_bound w;
     clock_reads := S (clock_reads w);
     http_calls := http_calls w; log_records := log_records w |}.

Definition add_call (c : http_call) (w : World) : World :=
  {| environ := environ w; _cached_token := _cached_token w;
     _cached_token_time := _cached_token_time w;
     __PMT_API_URL := __PMT_API_URL w; __ACCOUNT_ID := __ACCOUNT_ID w;
     PMT_API_URL_is_bound := PMT_API_URL_is_bound w;
     ACCOUNT_ID_is_bound := ACCOUNT_ID_is_bound w;
     clock_reads := clock_reads w;
     http_calls := (http_calls w ++ [c])%list; log_records := log_records w |}.

Definition add_log (r : log_record) (w : World) : World :=
  {| environ := environ w; _cached_token := _cached_token w;
     _cached_token_time := _cached_token_time w;
     __PMT_API_URL := __PMT_API_URL w; __ACCOUNT_ID := __ACCOUNT_ID w;
     PMT_API_URL_is_bound := PMT_API_URL_is_bound w;
     ACCOUNT_ID_is_bound := ACCOUNT_ID_is_bound w;
     clock_reads := clock_reads w;
     http_calls := http_calls w; log_records := (log_records w ++ [r])%list |}.

Definition set_environ (k v : string) (w : World) : World :=
  {| environ := <[k := v]> (environ w); _cached_token := _cached_token w;
     _cached_token_time := _cached_token_time w;
     __PMT_API_URL := __PMT_API_URL w; __ACCOUNT_ID := __ACCOUNT_ID w;
     PMT_API_URL_is_bound := PMT_API_URL_is_bound w;
     ACCOUNT_ID_is_bound := ACCOUNT_ID_is_bound w;
     clock_reads := clock_reads w;
     http_calls := http_calls w; log_records := log_records w |}.

Definition set_cache (token : string) (now : Z) (w : World) : World :=
  {| environ := environ w; _cached_token := Some token;
     _cached_token_time := now;
     __PMT_API_URL := __PMT_API_URL w; __ACCOUNT_ID := __ACCOUNT_ID w;
     PMT_API_URL_is_bound := PMT_API_URL_is_bound w;
     ACCOUNT_ID_is_bound := ACCOUNT_ID_is_bound w;
     clock_reads := clock_reads w;
     http_calls := http_calls w; log_records := log_records w |}.

(** Computations of the process: a result or an exception, and the state
    left behind. *)
Definition Py (A : Type) : Type := World -> outcome A * World.

Definition py_ret {A} (a : A) : Py A := fun w => (Ret a, w).
Definition py_raise {A} (e : exn) : Py A := fun w => (Raise e, w).

Definition py_bind {A B} (m : Py A) (k : A -> Py B) : Py B :=
  fun w =>
    match m w with
    | (Ret a, w1) => k a w1
    | (Raise e, w1) => (Raise e, w1)
    end.

(** [try: m  except Exception as e: h e] *)
Definition try_except {A} (m : Py A) (h : exn -> Py A) : Py A :=
  fun w =>
    match m w with
    | (Ret a, w1) => (Ret a, w1)
    | (Raise e, w1) => h e w1
    end.

Definition py_lift {A} (o : outcome A) : Py A := fun w => (o, w).
Definition py_do (f : World -> World) : Py unit := fun w => (Ret tt, f w).

Notation "'let*' x ':=' m 'in' k" := (py_bind m (fun x => k))
  (at level 10, x name, m at level 100, k at level 200).

(** [response.raise_for_status()] passes for the 2xx statuses only. *)
Definition is_success (status : Z) : bool := ((200 <=? status) && (status <=? 299))%Z.

Section Program.

(** Library functions the program calls: [base64.b64encode] on the bytes of
    a string, and [str] on a decoded JSON value. *)
Variable b64encode : string -> string.
Variable py_str : pyval -> string.

Variable net : Remote.

(** *** helpers/token.py *)

Definition _TOKEN_CACHE_SECONDS : Z := 59 * 60.

(** [time.time()] *)
Definition time_now : Py Z :=
  fun w => (Ret (time_time net (clock_reads w)), tick w).

(** [client.post(...)], [raise_for_status()], [response.json()] *)
Definition client_post (url : string) (h : headers) (data : list (string * string)) : Py pyval :=
  let* _ := py_do (add_call (POST url h data)) in
  match http_post net url h data with
  | NoReply f => py_raise (exn_of_failure f)
  | Reply status body =>
      if negb (is_success status) then py_raise (HTTPStatusError status)
      else match body with
           | None => py_raise JSONDecodeError
           | Some v => py_ret v
           end
  end.

Definition _fetch_and_store_token : Py string :=
  fun w =>
    let token_url := fstr (environ w !! "PINMETO_API_URL") +:+ "/oauth/token" in
    let app_id := environ w !! "PINMETO_APP_ID" in
    let app_secret := environ w !! "PINMETO_APP_SECRET" in
    if negb (str_truthy token_url) || negb (opt_truthy app_id) || negb (opt_truthy app_secret)
    then (let* _ := py_do (add_log LogEnvNotSet) in py_raise EnvironmentError) w
    else
      let credentials := fstr app_id +:+ ":" +:+ fstr app_secret in
      let b64_credentials := b64encode credentials in
      let h := [("Authorization", "Basic " +:+ b64_credentials);
                ("Content-Type", "application/x-www-form-urlencoded")] in
      let data := [("grant_type", "client_credentials")] in
      (let* resp_data := client_post token_url h data in
       let* token := py_lift (py_get resp_data "access_token" PNone) in
       if negb (truthy token) then py_raise KeyError
       else match token with
            | PStr t => let* _ := py_do (set_environ "PMT_ACCESS_TOKEN" t) in py_ret t
            | _ => py_raise TypeError   (* os.environ takes a str only *)
            end) w.

(** [_cached_token and (now - _cached_token_time) < _TOKEN_CACHE_SECONDS] *)
Definition cache_fresh (w : World) (now : Z) : bool :=
  opt_truthy (_cached_token w) && (now - _cached_token_time w <? _TOKEN_CACHE_SECONDS)%Z.

(** In the branch served from the cache [_cached_token] is a non-empty
    string, which [fstr] hands back as it is. *)
Definition get_pmt_access_token_async : Py string :=
  let* now := time_now in
  fun w =>
    if cache_fresh w now then (Ret (fstr (_cached_token w)), w)
    else (let* token := _fetch_and_store_token in
          let* _ := py_do (set_cache token now) in
          py_ret token) w.

(** *** helpers/helpers.py *)

(** [client.get(url, ...)], [raise_for_status()], [response.json()].  httpx
    refuses an address that is not a [str] with a [TypeError] before
    anything is sent. *)
Definition client_get (url : pyval) (h : headers) : Py pyval :=
  match url with
  | PStr u =>
      let* _ := py_do (add_call (GET u h)) in
      match http_get net u h with
      | NoReply f => py_raise (exn_of_failure f)
      | Reply status body =>
          if negb (is_success status) then py_raise (HTTPStatusError status)
          else match body with
               | None => py_raise JSONDecodeError
               | Some v => py_ret v
               end
      end
  | _ => py_raise TypeError
  end.

Definition request_headers (token : string) : headers :=
  [("Content-Type", "application/json"); ("authorization", "Bearer " +:+ token)].

Definition make_pmt_request (url : pyval) : Py pyval :=
  let* token := get_pmt_access_token_async in
  let h := request_headers token in
  try_except
    (client_get url h)
    (fun e => let* _ := py_do (add_log (LogRequestFailed e)) in py_ret PNone).

(** Lines 42 to 45 of the loop body: the items [all_data.extend] appends
    and the value assigned to [next_url]. *)
Definition read_page (resp : pyval) : outcome (list pyval * pyval) :=
  match py_get resp "data" (PList []) with
  | Raise e => Raise e
  | Ret page_data =>
      match py_iter page_data with
      | Raise e => Raise e
      | Ret items =>
          match py_get resp "paging" (PDict []) with
          | Raise e => Raise e
          | Ret paging =>
              match py_get paging "nextUrl" PNone with
              | Raise e => Raise e
              | Ret next_url => Ret (items, next_url)
              end
          end
      end
  end.

(** The [while next_url:] loop; one unit of fuel per iteration, [None] when
    the fuel runs out.  The flag [are_all_pages_fetched] is [True] until
    the assignment that precedes the first [break]. *)
Fixpoint paginated_loop (fuel : nat) (all_data : list pyval) (next_url : pyval)
    (w : World) : option (outcome (list pyval * bool) * World) :=
  if negb (truthy next_url) then Some (Ret (all_data, true), w)
  else
    match fuel with
    | O => None
    | S fuel' =>
        match make_pmt_request next_url w with
        | (Raise e, w1) => Some (Raise e, w1)
        | (Ret resp, w1) =>
            if negb (truthy resp)
            then Some (Ret (all_data, false), add_log LogPagesMissing w1)
            else
              match read_page resp with
              | Raise e => Some (Raise e, w1)
              | Ret (page_data, next_url') =>
                  let all_data' := (all_data ++ page_data)%list in
                  if negb (truthy next_url')
                  then Some (Ret (all_data', true), w1)
                  else paginated_loop fuel' all_data' next_url' w1
              end
        end
    end.

Definition make_paginated_pmt_request (fuel : nat) (url : string) (w : World)
    : option (outcome (list pyval * bool) * World) :=
  paginated_loop fuel [] (PStr url) w.

Definition format_list_response (response : list pyval)
    (are_all_pages_fetched : bool) : string :=
  match response with
  | [] => "The response was empty..."
  | _ :: _ =>
      let formatted_message := str_mul "-" 20 in
      let formatted_message :=
        if negb are_all_pages_fetched
        then "Not All pages were successfully fetched, collected data:" +:+ nl
             +:+ formatted_message
        else formatted_message in
      fold_left
        (fun msg result => msg +:+ (nl +:+ py_str result +:+ nl +:+ str_mul "-" 20))
        response formatted_message
  end.

(** *** main.py *)

(** The test [not __PMT_API_URL or not __ACCOUNT_ID]: the globals are
    assigned only by the start-up block, so a read before that raises
    [NameError]; [or] does not read its second operand when the first is
    falsy. *)
Definition globals_missing (w : World) : outcome bool :=
  if negb (PMT_API_URL_is_bound w) then Raise NameError
  else if negb (opt_truthy (__PMT_API_URL w)) then Ret true
  else if negb (ACCOUNT_ID_is_bound w) then Raise NameError
  else Ret (negb (opt_truthy (__ACCOUNT_ID w))).

Definition get_location (store_id : string) : Py string :=
  fun w =>
    match globals_missing w with
    | Raise e => (Raise e, w)
    | Ret true =>
        (Ret "Missing PINMETO_API_URL or PINMETO_ACCOUNT_ID environment variable.", w)
    | Ret false =>
      let url := fstr (__PMT_API_URL w) +:+ "/listings/v3/" +:+ fstr (__ACCOUNT_ID w)
                 +:+ "/locations/" +:+ store_id in
      (let* data := make_pmt_request (PStr url) in
       if negb (truthy data) then py_ret "Unable to fetch location data."
       else py_ret (py_str data)) w
    end.

Definition get_locations (fuel : nat) (w : World) : option (outcome string * World) :=
  match globals_missing w with
  | Raise e => Some (Raise e, w)
  | Ret true =>
      Some (Ret "Missing PINMETO_API_URL or PINMETO_ACCOUNT_ID environment variable.", w)
  | Ret false =>
    let url := fstr (__PMT_API_URL w) +:+ "/listings/v3/" +:+ fstr (__ACCOUNT_ID w)
               +:+ "/locations?pagesize=100" in
    match make_paginated_pmt_request fuel url w with
    | None => None
    | Some (Raise e, w1) => Some (Raise e, w1)
    | Some (Ret (data, are_all_pages_fetched), w1) =>
        if negb (truthy (PList data))
        then Some (Ret "Unable to fetch location data.", w1)
        else Some (Ret (format_list_response data are_all_pages_fetched), w1)
    end
  end.

(** *** Vocabulary of the properties *)

(** Number of token exchanges (POST calls) on record. *)
Definition is_post (c : http_call) : bool :=
  match c with
  | POST _ _ _ => true
  | GET _ _ => false
  end.

Definition exchange_calls (w : World) : nat :=
  length (List.filter is_post (http_calls w)).

(** The POST that [_fetch_and_store_token] sends from state [w]. *)
Definition token_post (w : World) : http_call :=
  POST (fstr (environ w !! "PINMETO_API_URL") +:+ "/oauth/token")
       [("Authorization",
         "Basic " +:+ b64encode (fstr (environ w !! "PINMETO_APP_ID") +:+ ":"
                                 +:+ fstr (environ w !! "PINMETO_APP_SECRET")));
        ("Content-Type", "application/x-www-form-urlencoded")]
       [("grant_type", "client_credentials")].

Definition token_reply (w : World) : http_reply :=
  match token_post w with
  | POST url h data => http_post net url h data
  | GET url h => http_get net url h
  end.

(** Application id and secret are both set to a non-empty value. *)
Definition credentials_set (w : World) : Prop :=
  opt_truthy (environ w !! "PINMETO_APP_ID") = true /\
  opt_truthy (environ w !! "PINMETO_APP_SECRET") = true.

(** The three ways an exchange fails that the specification names, with the
    exception each one raises. *)
Inductive exchange_failure : http_reply -> exn -> Prop :=
| exchange_bad_status s body :
    is_success s = false -> exchange_failure (Reply s body) (HTTPStatusError s)
| exchange_timed_out :
    exchange_failure (NoReply TimedOut) TimeoutException
| exchange_no_token s kvs :
    is_success s = true -> dict_lookup "access_token" kvs = None ->
    exchange_failure (Reply s (Some (PDict kvs))) KeyError.

(** The ways a GET fails, with the exception met inside the [try]. *)
Inductive get_failure : http_reply -> exn -> Prop :=
| get_unreachable : get_failure (NoReply Unreachable) NetworkError
| get_timed_out : get_failure (NoReply TimedOut) TimeoutException
| get_bad_status s body :
    is_success s = false -> get_failure (Reply s body) (HTTPStatusError s)
| get_malformed s :
    is_success s = true -> get_failure (Reply s None) JSONDecodeError.

(** The request of one page succeeds: a token is at hand and the GET for
    [url] is answered with a 2xx status and a body that decodes to [body];
    [w'] is the state after the call. *)
Definition request_succeeds (url : pyval) (w : World) (body : pyval) (w' : World) : Prop :=
  exists token w1 u s,
    get_pmt_access_token_async w = (Ret token, w1) /\
    url = PStr u /\
    http_get net u (request_headers token) = Reply s (Some body) /\
    is_success s = true /\
    w' = add_call (GET u (request_headers token)) w1.

Definition page_items (body : pyval) : list pyval :=
  match read_page body with
  | Ret (items, _) => items
  | Raise _ => []
  end.

(** [page_chain url w pages url' w']: from address [url] in state [w] the
    pages [pages] are requested one after the other, every request
    succeeds, each page links to the next, and the last one leaves [url']
    as the next address and [w'] as the state. *)
Inductive page_chain : pyval -> World -> list pyval -> pyval -> World -> Prop :=
| chain_nil url w : page_chain url w [] url w
| chain_cons url w body w1 items next rest url' w' :
    truthy url = true ->
    request_succeeds url w body w1 ->
    read_page body = Ret (items, next) ->
    page_chain next w1 rest url' w' ->
    page_chain url w (body :: rest) url' w'.

Inductive chain_end : Type := Exhausted | Failed.

Definition complete_flag (e : chain_end) : bool :=
  match e with
  | Exhausted => true
  | Failed => false
  end.

(** [finite_chain visited url w e]: the next links followed from [url] in
    state [w] form a finite chain; every link differs from the addresses
    visited before it; the chain ends with a page without a next link
    ([Exhausted]) or with a request that brings no response ([Failed]). *)
Inductive finite_chain : list pyval -> pyval -> World -> chain_end -> Prop :=
| chain_no_page visited url w :
    truthy url = false -> finite_chain visited url w Exhausted
| chain_fails visited url w resp w1 :
    truthy url = true ->
    make_pmt_request url w = (Ret resp, w1) ->
    truthy resp = false ->
    finite_chain visited url w Failed
| chain_page visited url w body w1 items next e :
    truthy url = true ->
    make_pmt_request url w = (Ret body, w1) ->
    truthy body = true ->
    read_page body = Ret (items, next) ->
    ~ In next (url :: visited) ->
    finite_chain (url :: visited) next w1 e ->
    finite_chain visited url w e.

(** The configuration the token exchange reads. *)
Definition config (w : World) : option string * option string * option string :=
  (environ w !! "PINMETO_API_URL", environ w !! "PINMETO_APP_ID",
   environ w !! "PINMETO_APP_SECRET").

(** A cached token is one the authorization endpoint issues for the
    current configuration.  It holds when the process starts, and every
    operation keeps it as long as the remote side does not change. *)
Definition cache_sound (w : World) : Prop :=
  forall t, _cached_token w = Some t -> str_truthy t = true ->
            fst (_fetch_and_store_token w) = Ret t.

End Program.

(** ** Concrete library functions and worlds, used to run the program *)

(** [base64.b64encode] on the bytes of a string (RFC 4648, with padding). *)
Definition b64_alphabet : string :=
  "ABCDEFGHIJKLMNOPQRSTUVWXYZabcdefghijklmnopqrstuvwxyz0123456789+/".

Definition b64_digit (n : N) : string :=
  match String.get (N.to_nat n) b64_alphabet with
  | Some c => String c EmptyString
  | None => "="
  end.

Fixpoint b64_groups (bytes : list N) : string :=
  match bytes with
  | [] => ""
  | [a] =>
      b64_digit (a / 4) +:+ b64_digit ((a mod 4) * 16) +:+ "=="
  | [a; b] =>
      b64_digit (a / 4) +:+ b64_digit ((a mod 4) * 16 + b / 16)
      +:+ b64_digit ((b mod 16) * 4) +:+ "="
  | a :: b :: c :: rest =>
      b64_digit (a / 4) +:+ b64_digit ((a mod 4) * 16 + b / 16)
      +:+ b64_digit ((b mod 16) * 4 + c / 64) +:+ b64_digit (c mod 64)
      +:+ b64_groups rest
  end.

Definition b64encode_bytes (s : string) : string :=
  b64_groups (map Ascii.N_of_ascii (String.list_ascii_of_string s)).

(** A site: the reply of each known address, whatever the headers; any
    other address is unreachable. *)
Fixpoint site_reply (pages : list (string * http_reply)) (url : string) : http_reply :=
  match pages with
  | [] => NoReply Unreachable
  | (u, r) :: rest => if String.eqb url u then r else site_reply rest url
  end.

(** A remote whose authorization endpoint answers every POST with
    [token_reply], whose listing API is the site [pages], and whose clock
    advances by [step] seconds from [t0] at each reading. *)
Definition site_remote (token_reply : http_reply) (pages : list (string * http_reply))
    (t0 step : Z) : Remote :=
  {| http_post := fun _ _ _ => token_reply;
     http_get := fun url _ => site_reply pages url;
     time_time := fun n => (t0 + step * Z.of_nat n)%Z |}.

(** The state of a process whose start-up has assigned the two globals of
    main.py from the environment, with no token cached. *)
Definition start_world (env : list (string * string)) : World :=
  {| environ := list_to_map env;
     _cached_token := None;
     _cached_token_time := 0;
     __PMT_API_URL := (list_to_map env : gmap string string) !! "PINMETO_API_URL";
     __ACCOUNT_ID := (list_to_map env : gmap string string) !! "PINMETO_ACCOUNT_ID";
     PMT_API_URL_is_bound := true;
     ACCOUNT_ID_is_bound := true;
     clock_reads := 0;
     http_calls := [];
     log_records := [] |}.

Definition full_env : list (string * string) :=
  [("PINMETO_API_URL", "https://api.example");
   ("PINMETO_APP_ID", "app-1");
   ("PINMETO_APP_SECRET", "s3cret");
   ("PINMETO_ACCOUNT_ID", "acct")].

Definition env_no_secret : list (string * string) :=
  [("PINMETO_API_URL", "https://api.example");
   ("PINMETO_APP_ID", "app-1");
   ("PINMETO_ACCOUNT_ID", "acct")].

Definition env_no_url : list (string * string) :=
  [("PINMETO_APP_ID", "app-1");
   ("PINMETO_APP_SECRET", "s3cret");
   ("PINMETO_ACCOUNT_ID", "acct")].

Definition token_ok : http_reply :=
  Reply 200 (Some (PDict [("access_token", PStr "tok-1"); ("expires_in", PInt 3600)])).

Definition item (n : Z) : pyval := PDict [("id", PInt n)].

Definition page (items : list pyval) (paging : list (string * pyval)) : pyval :=
  PDict [("data", PList items); ("paging", PDict paging)].

Definition ok (body : pyval) : http_reply := Reply 200 (Some body).

(** The remote sides of the scenarios. *)
Definition page1_of_2 : pyval := page [item 1; item 2] [("nextUrl", PStr "p2")].
Definition page2_of_2 : pyval := page [item 3] [].
Definition first_page : pyval := page [item 1] [("nextUrl", PStr "p2")].

Definition two_pages_remote : Remote :=
  site_remote token_ok [("p1", ok page1_of_2); ("p2", ok page2_of_2)] 1000 1.

Definition timeout_remote : Remote :=
  site_remote token_ok [("p1", ok first_page); ("p2", NoReply TimedOut)] 1000 1.

Definition empty_object_remote : Remote :=
  site_remote token_ok [("p1", ok (PDict []))] 1000 1.

Definition empty_object_second_remote : Remote :=
  site_remote token_ok [("p1", ok first_page); ("p2", ok (PDict []))] 1000 1.

Definition empty_listing_remote : Remote :=
  site_remote token_ok
    [("https://api.example/listings/v3/acct/locations?pagesize=100", ok (page [] []))]
    1000 1.

Definition looping_page : pyval := page [item 1] [("nextUrl", PStr "p1")].

Definition cyclic_remote : Remote :=
  site_remote token_ok [("p1", ok looping_page)] 1000 1.

Definition auth_down_remote : Remote :=
  site_remote (Reply 503 None) [("p1", ok page2_of_2)] 1000 1.

Definition auth_unreachable_remote : Remote :=
  site_remote (NoReply Unreachable) [] 1000 1.


(** ** The rest of the program: process start-up, and the vocabulary of
    the properties of the tools *)

Definition set_globals (api_url account_id : option string) (w : World) : World :=
  {| environ := environ w; _cached_token := _cached_token w;
     _cached_token_time := _cached_token_time w;
     __PMT_API_URL := api_url; __ACCOUNT_ID := account_id;
     PMT_API_URL_is_bound := true; ACCOUNT_ID_is_bound := true;
     clock_reads := clock_reads w;
     http_calls := http_calls w; log_records := log_records w |}.

Section Startup.

Variable b64encode : string -> string.
Variable net : Remote.

(** helpers/token.py, the blocking variant: the same steps, with the
    exchange run to completion by [asyncio.run]. *)
Definition get_pmt_access_token : Py string :=
  let* now := time_now net in
  fun w =>
    if cache_fresh w now then (Ret (fstr (_cached_token w)), w)
    else (let* token := _fetch_and_store_token b64encode net in
          let* _ := py_do (set_cache token now) in
          py_ret token) w.

(** main.py, the block under [if __name__ == "__main__"] up to the call of
    [mcp.run]: the token is obtained, then the two globals are read from
    the environment.  ([logging.info] leaves no record at the default
    level.) *)
Definition main_startup : Py unit :=
  let* token := get_pmt_access_token in
  fun w =>
    (Ret tt,
     set_globals (environ w !! "PINMETO_API_URL") (environ w !! "PINMETO_ACCOUNT_ID") w).

End Startup.

(** Both globals of main.py have been assigned and hold a non-empty value. *)
Definition tools_configured (w : World) : Prop :=
  PMT_API_URL_is_bound w && opt_truthy (__PMT_API_URL w) = true /\
  ACCOUNT_ID_is_bound w && opt_truthy (__ACCOUNT_ID w) = true.

(** The addresses the two tools build. *)
Definition location_url (w : World) (store_id : string) : string :=
  fstr (__PMT_API_URL w) +:+ "/listings/v3/" +:+ fstr (__ACCOUNT_ID w)
  +:+ "/locations/" +:+ store_id.

Definition locations_url (w : World) : string :=
  fstr (__PMT_API_URL w) +:+ "/listings/v3/" +:+ fstr (__ACCOUNT_ID w)
  +:+ "/locations?pagesize=100".

Definition missing_configuration_text : string :=
  "Missing PINMETO_API_URL or PINMETO_ACCOUNT_ID environment variable.".

Definition warning_line : string :=
  "Not All pages were successfully fetched, collected data:".

(** The text one item contributes to the rendering of a collection. *)
Definition item_block (py_str : pyval -> string) (result : pyval) : string :=
  nl +:+ py_str result +:+ nl +:+ str_mul "-" 20.

Fixpoint item_blocks (py_str : pyval -> string) (response : list pyval) : string :=
  match response with
  | [] => ""
  | result :: rest => item_block py_str result +:+ item_blocks py_str rest
  end.

(** Number of "pages missing" warnings on record. *)
Definition is_pages_warning (r : log_record) : bool :=
  match r with
  | LogPagesMissing => true
  | _ => false
  end.

Definition warnings_logged (w : World) : nat :=
  length (List.filter is_pages_warning (log_records w)).

(** The cached token, if any, is the one published in the environment. *)
Definition token_published (w : World) : Prop :=
  forall t, _cached_token w = Some t -> environ w !! "PMT_ACCESS_TOKEN" = Some t.

(** Further scenarios. *)
Definition bad_body_remote : Remote :=
  site_remote token_ok
    [("p1", ok first_page); ("p2", ok (PList [item 2]))] 1000 1.

Definition null_token_remote : Remote :=
  site_remote (Reply 200 (Some (PDict [("access_token", PNone)]))) [] 1000 1.

Definition slow_clock_remote : Remote :=
  site_remote token_ok
    [("https://api.example/listings/v3/acct/locations/7", ok (item 7));
     ("https://api.example/listings/v3/acct/locations?pagesize=100", NoReply TimedOut)]
    1000 3540.

Definition store_remote : Remote :=
  site_remote token_ok
    [("https://api.example/listings/v3/acct/locations/7", ok (item 7));
     ("https://api.example/listings/v3/acct/locations/8", ok (PDict []));
     ("https://api.example/listings/v3/acct/locations?pagesize=100",
      ok (page [item 1] [("nextUrl", PStr "p2")]))]
    1000 1.

Definition env_no_account : list (string * string) :=
  [("PINMETO_API_URL", "https://api.example");
   ("PINMETO_APP_ID", "app-1");
   ("PINMETO_APP_SECRET", "s3cret")].

(** A process that holds a token issued at time 0, and a remote side whose
    authorization endpoint is down and whose clock reads 3539, 3540, ...:
    the token is fresh for the first reading only. *)
Definition warm_world : World :=
  set_cache "tok-0" 0 (start_world full_env).

Definition expiring_remote : Remote :=
  site_remote (Reply 503 None)
    [("p1", ok first_page); ("p2", ok page2_of_2)] 3539 1.


(** [str] on the values that are strings, where it is the identity. *)
Definition str_of_text (v : pyval) : string :=
  match v with
  | PStr s => s
  | _ => ""
  end.

(** A process before start-up: nothing cached, the two globals of main.py
    not yet assigned (a read of either raises [NameError]). *)
Definition cold_world (env : list (string * string)) : World :=
  {| environ := list_to_map env;
     _cached_token := None;
     _cached_token_time := 0;
     __PMT_API_URL := None;
     __ACCOUNT_ID := None;
     PMT_API_URL_is_bound := false;
     ACCOUNT_ID_is_bound := false;
     clock_reads := 0;
     http_calls := [];
     log_records := [] |}.

(** * Properties *)

(** One step of evaluation of the monadic combinators. *)
Ltac py_step :=
  cbv beta iota delta [py_bind client_post py_do py_lift py_ret py_raise
                       negb py_get fst snd].

(** Case analysis along the paths of [_fetch_and_store_token] past its
    guard; [fin] closes each path. *)
Ltac fetch_paths fin :=
  py_step;
  match goal with
  | |- context [http_post ?n ?u ?h ?d] =>
      let f := fresh "f" in
      let s := fresh "s" in
      let body := fresh "body" in
      destruct (http_post n u h d) as [f|s [body|]]; py_step;
      [ destruct f; fin
      | destruct (is_success s); py_step; [|fin];
        let kvs := fresh "kvs" in
        destruct body as [ | | | | | |kvs]; py_step; try fin;
        let b := fresh "b" in
        let n := fresh "n" in
        let m := fresh "m" in
        let t := fresh "t" in
        let l := fresh "l" in
        let d := fresh "d" in
        destruct (default PNone (dict_lookup "access_token" kvs))
          as [ |b|n|m ?|t|l|d]; cbn [truthy]; py_step; try fin;
        [ destruct b | destruct (n =? 0)%Z | destruct (m =? 0)%Z
        | destruct t | destruct l | destruct d ]; py_step; fin
      | destruct (is_success s); py_step; fin ]
  end.

(** Builds the chain of a concrete walk, one successful request at a time. *)
Ltac walk_chain :=
  repeat first
    [ apply chain_nil
    | eapply chain_cons;
      [ reflexivity
      | do 4 eexists; repeat split; first [reflexivity | vm_compute; reflexivity]
      | reflexivity
      | ] ].

Section TokenCache.

Variable b64encode : string -> string.
Variable net : Remote.

Local Abbreviation fetch := (_fetch_and_store_token b64encode net).
Local Abbreviation get_token := (get_pmt_access_token_async b64encode net).
Local Abbreviation now_at w := (time_time net (clock_reads w)).

Local Ltac py_done := split; [discriminate | do 2 eexists; reflexivity].

(** The address built by the f-string is never empty, whatever the
    environment holds: the first disjunct of the guard never fires. *)
Lemma token_url_truthy (o : option string) :
  str_truthy (fstr o +:+ "/oauth/token") = true.
Proof.
  destruct o as [s|]; [|reflexivity].
  destruct s; reflexivity.
Qed.

Lemma fetch_missing_credentials (w : World) :
  opt_truthy (environ w !! "PINMETO_APP_ID") = false \/
  opt_truthy (environ w !! "PINMETO_APP_SECRET") = false ->
  fetch w = (Raise EnvironmentError, add_log LogEnvNotSet w).
Proof.
  intros H. unfold _fetch_and_store_token.
  rewrite token_url_truthy.
  destruct H as [H|H]; rewrite H; simpl.
  - reflexivity.
  - rewrite orb_true_r. reflexivity.
Qed.


Lemma fetch_failure (w : World) (e : exn) :
  credentials_set w ->
  exchange_failure (token_reply b64encode net w) e ->
  fetch w = (Raise e, add_call (token_post b64encode w) w).
Proof.
  intros [Hid Hsec] Hfail.
  unfold _fetch_and_store_token.
  rewrite token_url_truthy, Hid, Hsec. simpl orb. cbv iota.
  unfold token_reply, token_post in Hfail.
  unfold py_bind at 1. unfold client_post, py_bind at 1, py_do.
  inversion Hfail as [s body Hs Heq | Heq | s kvs Hs Hkey Heq]; subst e.
  - rewrite Hs. reflexivity.
  - reflexivity.
  - rewrite Hs. cbn [negb py_ret py_lift py_get].
    rewrite Hkey. reflexivity.
Qed.

Lemma get_token_fresh (w : World) :
  cache_fresh w (now_at w) = true ->
  get_token w = (Ret (fstr (_cached_token w)), tick w).
Proof.
  intros H. unfold get_pmt_access_token_async, py_bind, time_now.
  change (cache_fresh (tick w) (now_at w)) with (cache_fresh w (now_at w)).
  rewrite H. reflexivity.
Qed.

Lemma get_token_stale (w : World) :
  cache_fresh w (now_at w) = false ->
  get_token w =
    match fetch (tick w) with
    | (Ret t, w1) => (Ret t, set_cache t (now_at w) w1)
    | (Raise e, w1) => (Raise e, w1)
    end.
Proof.
  intros H. unfold get_pmt_access_token_async, py_bind at 1, time_now.
  change (cache_fresh (tick w) (now_at w)) with (cache_fresh w (now_at w)).
  rewrite H. unfold py_bind.
  destruct (fetch (tick w)) as [[t|e] w1]; reflexivity.
Qed.

Lemma exchange_calls_add_post (c : http_call) (w : World) :
  is_post c = true -> exchange_calls (add_call c w) = S (exchange_calls w).
Proof.
  intros Hc. unfold exchange_calls, add_call. cbn [http_calls].
  rewrite List.filter_app, List.length_app. cbn [List.filter]. rewrite Hc.
  cbn [length]. lia.
Qed.

(** X5.  When no fresh token is cached and the application id or the secret is
    unset or empty, the call raises [EnvironmentError] after logging one
    error, and no HTTP call is made. *)
Lemma get_token_missing_credentials (w : World) :
  cache_fresh w (now_at w) = false ->
  opt_truthy (environ w !! "PINMETO_APP_ID") = false \/
  opt_truthy (environ w !! "PINMETO_APP_SECRET") = false ->
  get_token w = (Raise EnvironmentError, add_log LogEnvNotSet (tick w)).
Proof.
  intros Hstale Hcred. rewrite (get_token_stale w Hstale).
  rewrite (fetch_missing_credentials (tick w) Hcred). reflexivity.
Qed.

(** Only a non-empty string is ever cached or returned. *)
Lemma get_token_returns_nonempty (w : World) (t : string) (w' : World) :
  (forall c, _cached_token w = Some c -> str_truthy c = true) ->
  get_token w = (Ret t, w') ->
  str_truthy t = true /\
  (forall c, _cached_token w' = Some c -> str_truthy c = true).
Proof.
  intros Hinv Hrun.
  destruct (cache_fresh w (now_at w)) eqn:Hfresh.
  - rewrite (get_token_fresh w Hfresh) in Hrun. inversion Hrun; subst.
    unfold cache_fresh in Hfresh. apply andb_true_iff in Hfresh as [Hc _].
    destruct (_cached_token w) as [c|] eqn:Hcache; [|discriminate].
    split; [exact Hc|]. cbn [tick _cached_token]. rewrite Hcache. exact Hinv.
  - rewrite (get_token_stale w Hfresh) in Hrun.
    assert (Hfetch : forall t1 w1, fetch (tick w) = (Ret t1, w1) -> str_truthy t1 = true).
    { intros t1 w1. unfold _fetch_and_store_token.
      destruct (negb _ || _ || _); [discriminate|].
      unfold py_bind at 1.
      destruct (client_post _ _ _ _ _) as [[resp|e1] w2]; [|discriminate].
      unfold py_bind at 1, py_lift.
      destruct (py_get resp "access_token" PNone) as [tok|e1]; [|discriminate].
      destruct (truthy tok) eqn:Htok; [|discriminate]. cbn [negb].
      destruct tok; try discriminate.
      intros Heq. inversion Heq; subst. exact Htok. }
    destruct (fetch (tick w)) as [[t1|e1] w1] eqn:Hf; [|discriminate].
    inversion Hrun; subst. pose proof (Hfetch _ _ eq_refl) as Ht.
    split; [exact Ht|]. cbn [set_cache _cached_token].
    intros c Hc. inversion Hc; subst. exact Ht.
Qed.


(** C7.  When the exchange is performed (no fresh token cached, id and
    secret configured) and the authorization endpoint answers with a
    non-success status, times out, or answers with a JSON object without
    [access_token], the call raises the exception of that failure to its
    caller after exactly one POST, and the cache is left as it was. *)
Theorem get_token_exchange_error_propagates (w : World) (e : exn) :
  cache_fresh w (now_at w) = false ->
  credentials_set w ->
  exchange_failure (token_reply b64encode net w) e ->
  exists w',
    get_token w = (Raise e, w') /\
    http_calls w' = (http_calls w ++ [token_post b64encode w])%list /\
    exchange_calls w' = S (exchange_calls w) /\
    _cached_token w' = _cached_token w /\
    _cached_token_time w' = _cached_token_time w.
Proof.
  intros Hstale Hcred Hfail.
  rewrite (get_token_stale w Hstale).
  rewrite (fetch_failure (tick w) e Hcred Hfail).
  eexists. split; [reflexivity|]. repeat split.
  apply (exchange_calls_add_post (token_post b64encode (tick w)) (tick w)).
  reflexivity.
Qed.

(** X6.  Without [PINMETO_API_URL] the guard still passes: the exchange is sent
    to the address ["None/oauth/token"], and [EnvironmentError] is not what
    the call ends with. *)
Lemma fetch_without_api_url (w : World) :
  environ w !! "PINMETO_API_URL" = None ->
  credentials_set w ->
  fst (fetch w) <> Raise EnvironmentError /\
  exists h data,
    http_calls (snd (fetch w)) = (http_calls w ++ [POST "None/oauth/token" h data])%list.
Proof.
  intros Hurl [Hid Hsec]. unfold _fetch_and_store_token.
  rewrite token_url_truthy, Hid, Hsec, Hurl. cbn [orb negb fstr].
  fetch_paths py_done.
Qed.

End TokenCache.

Section Request.

Variable b64encode : string -> string.
Variable net : Remote.

Local Abbreviation get_token := (get_pmt_access_token_async b64encode net).
Local Abbreviation request := (make_pmt_request b64encode net).

Lemma request_unfold (url : pyval) (w : World) :
  request url w =
    match get_token w with
    | (Ret tok, w1) =>
        try_except (client_get net url (request_headers tok))
          (fun e => let* _ := py_do (add_log (LogRequestFailed e)) in py_ret PNone) w1
    | (Raise e, w1) => (Raise e, w1)
    end.
Proof. reflexivity. Qed.

Lemma request_raises (url : pyval) (w : World) (e : exn) (w1 : World) :
  get_token w = (Raise e, w1) -> request url w = (Raise e, w1).
Proof.
  intros H. unfold make_pmt_request, py_bind. rewrite H. reflexivity.
Qed.

Lemma request_get_success (u : string) (w : World) (tok : string) (w1 : World)
    (s : Z) (body : pyval) :
  get_token w = (Ret tok, w1) ->
  http_get net u (request_headers tok) = Reply s (Some body) ->
  is_success s = true ->
  request (PStr u) w = (Ret body, add_call (GET u (request_headers tok)) w1).
Proof.
  intros Htok Hrep Hs. unfold make_pmt_request, py_bind at 1. rewrite Htok.
  unfold try_except, client_get, py_bind, py_do. rewrite Hrep, Hs. reflexivity.
Qed.

Lemma request_get_failure (u : string) (w : World) (tok : string) (w1 : World)
    (e : exn) :
  get_token w = (Ret tok, w1) ->
  get_failure (http_get net u (request_headers tok)) e ->
  request (PStr u) w =
    (Ret PNone, add_log (LogRequestFailed e) (add_call (GET u (request_headers tok)) w1)).
Proof.
  intros Htok Hfail. unfold make_pmt_request, py_bind at 1. rewrite Htok.
  unfold try_except, client_get, py_bind, py_do.
  inversion Hfail as [Heq | Heq | s body Hs Heq | s Hs Heq]; subst e;
    try rewrite Hs; reflexivity.
Qed.

Lemma request_returns (url : pyval) (w : World) (tok : string) (w1 : World) :
  get_token w = (Ret tok, w1) ->
  exists v w', request url w = (Ret v, w').
Proof.
  intros Htok. unfold make_pmt_request, py_bind at 1. rewrite Htok.
  unfold try_except.
  destruct (client_get net url (request_headers tok) w1) as [[v|e] w2].
  - eauto.
  - unfold py_bind, py_do, py_ret. eauto.
Qed.

Lemma request_succeeds_returns (url : pyval) (w : World) (body : pyval) (w' : World) :
  request_succeeds b64encode net url w body w' ->
  request url w = (Ret body, w').
Proof.
  intros (tok & w1 & u & s & Htok & -> & Hrep & Hs & ->).
  exact (request_get_success u w tok w1 s body Htok Hrep Hs).
Qed.

(** C5, as amended.  Once a token is at hand, [make_pmt_request] never
    raises: a network error, a timeout, a non-success status and a
    malformed body each give [None] and one error record in the log, and a
    2xx reply gives its decoded body.  A failure to obtain the token is not
    absorbed: the exception of [get_pmt_access_token_async] reaches the
    caller. *)
Theorem make_pmt_request_absorbs_get_failures (url : pyval) (w : World) :
  (forall tok w1,
     get_token w = (Ret tok, w1) ->
     (exists v w', request url w = (Ret v, w')) /\
     (forall u e,
        url = PStr u ->
        get_failure (http_get net u (request_headers tok)) e ->
        request url w =
          (Ret PNone,
           add_log (LogRequestFailed e) (add_call (GET u (request_headers tok)) w1))) /\
     (forall u s body,
        url = PStr u ->
        http_get net u (request_headers tok) = Reply s (Some body) ->
        is_success s = true ->
        request url w = (Ret body, add_call (GET u (request_headers tok)) w1)))
  /\
  (forall e w1, get_token w = (Raise e, w1) -> request url w = (Raise e, w1)).
Proof.
  split.
  - intros tok w1 Htok. split; [|split].
    + exact (request_returns url w tok w1 Htok).
    + intros u e -> Hfail. exact (request_get_failure u w tok w1 e Htok Hfail).
    + intros u s body -> Hrep Hs.
      exact (request_get_success u w tok w1 s body Htok Hrep Hs).
  - intros e w1 Htok. exact (request_raises url w e w1 Htok).
Qed.

End Request.

Section Walk.

Variable b64encode : string -> string.
Variable net : Remote.

Local Abbreviation request := (make_pmt_request b64encode net).
Local Abbreviation loop := (paginated_loop b64encode net).
Local Abbreviation fetch_all := (make_paginated_pmt_request b64encode net).
Local Abbreviation chain := (page_chain b64encode net).
Local Abbreviation all_truthy := (Forall (fun body => truthy body = true)).

(** The [while] test fails: the loop is left with what was accumulated. *)
Lemma loop_no_url (fuel : nat) (acc : list pyval) (url : pyval) (w : World) :
  truthy url = false -> loop fuel acc url w = Some (Ret (acc, true), w).
Proof.
  intros H. destruct fuel; cbn [paginated_loop]; rewrite H; reflexivity.
Qed.

(** A falsy response: the flag is cleared and the loop is left at once. *)
Lemma loop_no_response (fuel : nat) (acc : list pyval) (url : pyval) (w : World)
    (resp : pyval) (w1 : World) :
  truthy url = true ->
  request url w = (Ret resp, w1) ->
  truthy resp = false ->
  loop (S fuel) acc url w = Some (Ret (acc, false), add_log LogPagesMissing w1).
Proof.
  intros Hu Hreq Hresp. cbn [paginated_loop]. rewrite Hu, Hreq, Hresp. reflexivity.
Qed.

(** A truthy response that reads as a page: its items are appended and the
    loop goes on with the next address. *)
Lemma loop_page (fuel : nat) (acc : list pyval) (url : pyval) (w : World)
    (body : pyval) (w1 : World) (items : list pyval) (next : pyval) :
  truthy url = true ->
  request url w = (Ret body, w1) ->
  truthy body = true ->
  read_page body = Ret (items, next) ->
  loop (S fuel) acc url w = loop fuel (acc ++ items)%list next w1.
Proof.
  intros Hu Hreq Hbody Hread. cbn [paginated_loop].
  rewrite Hu, Hreq, Hbody, Hread. cbn [negb].
  destruct (truthy next) eqn:Hnext; cbn [negb].
  - reflexivity.
  - symmetry. apply loop_no_url. exact Hnext.
Qed.

(** A page that links to a further page is a non-empty object. *)
Lemma read_page_next_truthy (body : pyval) (items : list pyval) (next : pyval) :
  read_page body = Ret (items, next) -> truthy next = true -> truthy body = true.
Proof.
  unfold read_page. destruct body as [ | | | | | |kvs]; try discriminate.
  destruct kvs as [|kv kvs]; [|reflexivity].
  cbn. intros Heq. inversion Heq; subst. discriminate.
Qed.

Lemma page_items_read (body : pyval) (items : list pyval) (next : pyval) :
  read_page body = Ret (items, next) -> page_items body = items.
Proof. intros H. unfold page_items. rewrite H. reflexivity. Qed.

Lemma chain_start_truthy (url : pyval) (w : World) (pages : list pyval)
    (url' : pyval) (w' : World) :
  chain url w pages url' w' -> truthy url' = true -> truthy url = true.
Proof. intros H. destruct H; auto. Qed.

(** Every page of a chain that leads to a further address is truthy. *)
Lemma chain_prefix_truthy (url : pyval) (w : World) (pages : list pyval)
    (url' : pyval) (w' : World) :
  chain url w pages url' w' -> truthy url' = true -> all_truthy pages.
Proof.
  induction 1 as [|url w body w1 items next rest url' w' Hu Hreq Hread Hrest IH];
    intros Hend.
  - constructor.
  - constructor; [|exact (IH Hend)].
    apply (read_page_next_truthy body items next Hread).
    exact (chain_start_truthy next w1 rest url' w' Hrest Hend).
Qed.

(** The loop follows a chain of truthy pages to its end, appending the
    items of each page in turn; one unit of fuel per page. *)
Lemma loop_follows_chain (url : pyval) (w : World) (pages : list pyval)
    (url' : pyval) (w' : World) :
  chain url w pages url' w' ->
  all_truthy pages ->
  forall fuel acc,
    loop (length pages + fuel) acc url w =
    loop fuel (acc ++ concat (map page_items pages))%list url' w'.
Proof.
  induction 1 as [|url w body w1 items next rest url' w' Hu Hreq Hread Hrest IH];
    intros Hall fuel acc.
  - cbn. rewrite app_nil_r. reflexivity.
  - inversion Hall as [|? ? Hbody Hrest_all]; subst.
    cbn [length Nat.add map concat].
    rewrite (loop_page _ acc url w body w1 items next Hu
               (request_succeeds_returns b64encode net url w body w1 Hreq) Hbody Hread).
    rewrite (IH Hrest_all fuel (acc ++ items)%list).
    rewrite (page_items_read body items next Hread), app_assoc. reflexivity.
Qed.

(** C1, as amended.  For every chain of N >= 0 pages in which every request
    succeeds with a truthy body (a non-empty JSON object) and the last page
    has no next link, the walk returns the items of the pages, concatenated
    in the order of the visit, and the flag [True]; N units of fuel
    suffice. *)
Theorem fetch_all_complete (url : string) (w : World) (pages : list pyval)
    (url' : pyval) (w' : World) (fuel : nat) :
  chain (PStr url) w pages url' w' ->
  truthy url' = false ->
  all_truthy pages ->
  length pages <= fuel ->
  fetch_all fuel url w = Some (Ret (concat (map page_items pages), true), w').
Proof.
  intros Hchain Hend Hall Hfuel. unfold make_paginated_pmt_request.
  replace fuel with (length pages + (fuel - length pages)) by lia.
  rewrite (loop_follows_chain _ _ _ _ _ Hchain Hall).
  apply loop_no_url. exact Hend.
Qed.

(** C2, as amended.  When the requests of pages 1..k-1 succeed and the request of page
    k brings no response, the walk returns the items of pages 1..k-1 and
    the flag [False]; the state it leaves is the one right after the
    failed request, with one warning logged: no further call is made. *)
Theorem fetch_all_stops_at_first_failure (url : string) (w : World)
    (prefix : list pyval) (url_k : pyval) (w_k w' : World) (fuel : nat) :
  chain (PStr url) w prefix url_k w_k ->
  truthy url_k = true ->
  request url_k w_k = (Ret PNone, w') ->
  length prefix < fuel ->
  fetch_all fuel url w =
    Some (Ret (concat (map page_items prefix), false), add_log LogPagesMissing w')
  /\ http_calls (add_log LogPagesMissing w') = http_calls w'.
Proof.
  intros Hchain Hk Hfail Hfuel. split; [|reflexivity].
  unfold make_paginated_pmt_request.
  replace fuel with (length prefix + S (fuel - S (length prefix))) by lia.
  rewrite (loop_follows_chain _ _ _ _ _ Hchain
             (chain_prefix_truthy _ _ _ _ _ Hchain Hk)).
  apply (loop_no_response _ _ url_k w_k PNone w' Hk Hfail). reflexivity.
Qed.

(** C10.  When the request of page k succeeds at the HTTP level but its
    decoded body is falsy, the walk ends as it does for a failed request:
    the items of pages 1..k-1, the flag [False], one warning, and no
    further call. *)
Theorem fetch_all_falsy_body_is_failure (url : string) (w : World)
    (prefix : list pyval) (url_k : pyval) (w_k : World) (body : pyval)
    (w' : World) (fuel : nat) :
  chain (PStr url) w prefix url_k w_k ->
  truthy url_k = true ->
  request_succeeds b64encode net url_k w_k body w' ->
  truthy body = false ->
  length prefix < fuel ->
  fetch_all fuel url w =
    Some (Ret (concat (map page_items prefix), false), add_log LogPagesMissing w')
  /\ http_calls (add_log LogPagesMissing w') = http_calls w'.
Proof.
  intros Hchain Hk Hsucc Hbody Hfuel. split; [|reflexivity].
  unfold make_paginated_pmt_request.
  replace fuel with (length prefix + S (fuel - S (length prefix))) by lia.
  rewrite (loop_follows_chain _ _ _ _ _ Hchain
             (chain_prefix_truthy _ _ _ _ _ Hchain Hk)).
  apply (loop_no_response _ _ url_k w_k body w' Hk
           (request_succeeds_returns b64encode net url_k w_k body w' Hsucc) Hbody).
Qed.

(** A finite chain is walked to its end, whatever was accumulated before. *)
Lemma loop_finite_chain (visited : list pyval) (url : pyval) (w : World)
    (e : chain_end) :
  finite_chain b64encode net visited url w e ->
  exists n items w',
    forall fuel acc,
      n <= fuel ->
      loop fuel acc url w = Some (Ret (acc ++ items, complete_flag e)%list, w').
Proof.
  induction 1 as [visited url w Hu
                 |visited url w resp w1 Hu Hreq Hresp
                 |visited url w body w1 items next e Hu Hreq Hbody Hread Hnew Hrest IH].
  - exists 0, [], w. intros fuel acc _. rewrite app_nil_r.
    apply loop_no_url. exact Hu.
  - exists 1, [], (add_log LogPagesMissing w1). intros fuel acc Hfuel.
    destruct fuel as [|fuel]; [lia|]. rewrite app_nil_r.
    exact (loop_no_response fuel acc url w resp w1 Hu Hreq Hresp).
  - destruct IH as (n & rest & w' & IH).
    exists (S n), (items ++ rest)%list, w'. intros fuel acc Hfuel.
    destruct fuel as [|fuel]; [lia|].
    rewrite (loop_page fuel acc url w body w1 items next Hu Hreq Hbody Hread).
    rewrite (IH fuel (acc ++ items)%list ltac:(lia)), app_assoc. reflexivity.
Qed.

(** C8.  When the next links followed from the start address form a finite
    chain (each link differs from the addresses visited before, and the
    chain ends with a page without a next link or with a request that
    brings no response), the call returns for every sufficient amount of
    fuel: with the flag [True] when the chain was exhausted, [False] when
    it stopped at the first failure. *)
Theorem fetch_all_terminates (url : string) (w : World) (e : chain_end) :
  finite_chain b64encode net [] (PStr url) w e ->
  exists n items w',
    forall fuel,
      n <= fuel ->
      fetch_all fuel url w = Some (Ret (items, complete_flag e), w').
Proof.
  intros Hfin.
  destruct (loop_finite_chain [] (PStr url) w e Hfin) as (n & items & w' & Hrun).
  exists n, items, w'. intros fuel Hfuel.
  exact (Hrun fuel [] Hfuel).
Qed.

End Walk.

Section Idempotence.

Variable b64encode : string -> string.
Variable net : Remote.

Local Abbreviation fetch := (_fetch_and_store_token b64encode net).
Local Abbreviation get_token := (get_pmt_access_token_async b64encode net).
Local Abbreviation request := (make_pmt_request b64encode net).
Local Abbreviation loop := (paginated_loop b64encode net).
Local Abbreviation fetch_all := (make_paginated_pmt_request b64encode net).
Local Abbreviation now_at w := (time_time net (clock_reads w)).

(** The outcome of an exchange depends on the configuration only. *)
Lemma fetch_config_only (w1 w2 : World) :
  config w1 = config w2 -> fst (fetch w1) = fst (fetch w2).
Proof.
  unfold config. intros H. inversion H as [[Hurl Hid Hsec]].
  unfold _fetch_and_store_token. rewrite Hurl, Hid, Hsec.
  destruct (negb _ || _ || _).
  - reflexivity.
  - fetch_paths ltac:(reflexivity).
Qed.

(** An exchange leaves the configuration and the cache as they were. *)
Lemma fetch_frame (w : World) :
  config (snd (fetch w)) = config w /\
  _cached_token (snd (fetch w)) = _cached_token w.
Proof.
  unfold _fetch_and_store_token.
  destruct (negb _ || _ || _).
  - split; reflexivity.
  - fetch_paths ltac:(split; [|reflexivity]; try reflexivity).
    unfold config. cbn [environ set_environ add_call].
    rewrite !lookup_insert_ne by done. reflexivity.
Qed.

Lemma cache_sound_frame (w w' : World) :
  config w' = config w ->
  _cached_token w' = _cached_token w ->
  cache_sound b64encode net w -> cache_sound b64encode net w'.
Proof.
  intros Hcfg Hcache Hsound t Ht Htruthy.
  rewrite Hcache in Ht.
  rewrite (fetch_config_only w' w Hcfg). exact (Hsound t Ht Htruthy).
Qed.

(** With a sound cache the token handed out is the one an exchange gives,
    and the cache stays sound. *)
Lemma get_token_sound (w : World) :
  cache_sound b64encode net w ->
  fst (get_token w) = fst (fetch w) /\
  cache_sound b64encode net (snd (get_token w)) /\
  config (snd (get_token w)) = config w.
Proof.
  intros Hsound.
  destruct (cache_fresh w (now_at w)) eqn:Hfresh.
  - rewrite (get_token_fresh b64encode net w Hfresh). cbn [fst snd].
    unfold cache_fresh in Hfresh. apply andb_true_iff in Hfresh as [Hc _].
    destruct (_cached_token w) as [c|] eqn:Hcache; [|discriminate].
    split; [|split].
    + symmetry. exact (Hsound c Hcache Hc).
    + apply (cache_sound_frame w (tick w)); [reflexivity|reflexivity|exact Hsound].
    + reflexivity.
  - rewrite (get_token_stale b64encode net w Hfresh).
    pose proof (fetch_frame (tick w)) as [Hcfg Hcache].
    pose proof (fetch_config_only (tick w) w eq_refl) as Hsame.
    destruct (fetch (tick w)) as [[t1|e1] w1] eqn:Hf; cbn [fst snd] in *.
    + split; [exact Hsame|]. split; [|exact Hcfg].
      intros t Ht _. cbn [set_cache _cached_token] in Ht. inversion Ht; subst t.
      rewrite (fetch_config_only (set_cache t1 (now_at w) w1) (tick w) Hcfg).
      rewrite Hf. reflexivity.
    + split; [exact Hsame|]. split; [|exact Hcfg].
      apply (cache_sound_frame w w1); [exact Hcfg|exact Hcache|exact Hsound].
Qed.

Lemma request_sound (url : pyval) (w : World) :
  cache_sound b64encode net w ->
  cache_sound b64encode net (snd (request url w)) /\
  config (snd (request url w)) = config w.
Proof.
  intros Hsound. destruct (get_token_sound w Hsound) as (_ & Hs & Hcfg).
  rewrite request_unfold.
  destruct (get_token w) as [[tok|e] w1]; cbn [fst snd] in *; [|auto].
  assert (Hframe : config (snd (try_except (client_get net url (request_headers tok))
            (fun e => let* _ := py_do (add_log (LogRequestFailed e)) in py_ret PNone) w1))
            = config w1 /\
          _cached_token (snd (try_except (client_get net url (request_headers tok))
            (fun e => let* _ := py_do (add_log (LogRequestFailed e)) in py_ret PNone) w1))
            = _cached_token w1).
  { unfold try_except, client_get.
    destruct url as [ | | | |u| | ]; py_step; try (split; reflexivity).
    destruct (http_get net u (request_headers tok)) as [f|s [body|]]; py_step;
      try destruct (is_success s); py_step; split; reflexivity. }
  destruct Hframe as [Hc1 Hc2]. split.
  - exact (cache_sound_frame w1 _ Hc1 Hc2 Hs).
  - rewrite Hc1. exact Hcfg.
Qed.

(** With sound caches and equal configurations, a request has the same
    outcome in both states. *)
Lemma request_deterministic (url : pyval) (w1 w2 : World) :
  cache_sound b64encode net w1 ->
  cache_sound b64encode net w2 ->
  config w1 = config w2 ->
  fst (request url w1) = fst (request url w2).
Proof.
  intros Hs1 Hs2 Hcfg.
  destruct (get_token_sound w1 Hs1) as (Ht1 & _ & _).
  destruct (get_token_sound w2 Hs2) as (Ht2 & _ & _).
  rewrite (fetch_config_only w1 w2 Hcfg), <- Ht2 in Ht1.
  rewrite !request_unfold.
  destruct (get_token w1) as [[tok1|e1] w1'], (get_token w2) as [[tok2|e2] w2'];
    cbn [fst] in Ht1; inversion Ht1; subst; [|reflexivity].
  unfold try_except, client_get.
  destruct url as [ | | | |u| | ]; py_step; try reflexivity.
  destruct (http_get net u (request_headers tok2)) as [f|s [body|]]; py_step;
    try destruct (is_success s); py_step; reflexivity.
Qed.




(** A process that has not yet obtained a token has a sound cache. *)
Lemma cache_sound_start (w : World) :
  _cached_token w = None -> cache_sound b64encode net w.
Proof. intros H t Ht. rewrite H in Ht. discriminate. Qed.

End Idempotence.

(** Without the finiteness of the chain the walk need not end: on a site
    whose only page links to itself no amount of fuel gives a result. *)
Lemma cyclic_chain_never_returns (fuel : nat) :
  forall acc w,
    cache_sound b64encode_bytes cyclic_remote w ->
    config w = config (start_world full_env) ->
    paginated_loop b64encode_bytes cyclic_remote fuel acc (PStr "p1") w = None.
Proof.
  induction fuel as [|fuel IH]; intros acc w Hs Hcfg; cbn [paginated_loop truthy negb].
  - reflexivity.
  - pose proof (request_deterministic b64encode_bytes cyclic_remote (PStr "p1")
                  w (start_world full_env) Hs
                  (cache_sound_start b64encode_bytes cyclic_remote
                     (start_world full_env) eq_refl) Hcfg)
      as Hreq.
    destruct (request_sound b64encode_bytes cyclic_remote (PStr "p1") w Hs)
      as [Hs1 Hcfg1].
    destruct (make_pmt_request b64encode_bytes cyclic_remote (PStr "p1") w)
      as [o w1].
    cbn [fst snd] in *.
    assert (Ho : o = Ret looping_page) by (rewrite Hreq; vm_compute; reflexivity).
    subst o. cbn.
    apply IH; [exact Hs1|]. rewrite Hcfg1. exact Hcfg.
Qed.

Section Tool.

Variable b64encode : string -> string.
Variable py_str : pyval -> string.
Variable net : Remote.

Local Abbreviation render := (format_list_response py_str).

Lemma fold_left_keeps_head (f : pyval -> string) (l : list pyval) :
  forall (c : Ascii.ascii) (rest : string),
    exists rest',
      fold_left (fun msg result => msg +:+ f result) l (String c rest) = String c rest'.
Proof.
  induction l as [|x l IH]; intros c rest; cbn [fold_left].
  - eauto.
  - cbn [String.append]. apply IH.
Qed.

(** A non-empty collection is rendered as text that begins with the
    divider or with the warning line. *)
Lemma format_list_response_head (response : list pyval) (flag : bool) :
  response <> [] ->
  exists c rest,
    render response flag = String c rest /\ (c = "-" \/ c = "N")%char.
Proof.
  intros Hne. destruct response as [|x l]; [congruence|].
  unfold format_list_response.
  destruct flag; cbn [negb].
  - destruct (fold_left_keeps_head
                (fun result => nl +:+ py_str result +:+ nl +:+ str_mul "-" 20)
                (x :: l) "-"%char (str_mul "-" 19)) as [rest' Hrest].
    exists "-"%char, rest'. split; [exact Hrest|auto].
  - match goal with |- context [fold_left ?g _ (?a +:+ ?b +:+ ?d)] =>
      destruct (fold_left_keeps_head
                  (fun result => nl +:+ py_str result +:+ nl +:+ str_mul "-" 20)
                  (x :: l) "N"%char
                  ("ot All pages were successfully fetched, collected data:" +:+ b +:+ d))
        as [rest' Hrest]
    end.
    exists "N"%char, rest'. split; [exact Hrest|auto].
Qed.

(** X18.  Whatever the remote side answers, the tool never returns the
    placeholder of [format_list_response]: its branch for the empty list
    is out of reach behind the guard [if not data]. *)
Lemma get_locations_never_placeholder (fuel : nat) (w : World) (text : string)
    (w' : World) :
  get_locations b64encode py_str net fuel w = Some (Ret text, w') ->
  text <> "The response was empty...".
Proof.
  unfold get_locations.
  destruct (globals_missing w) as [[|]|e];
    [intros H; inversion H; subst; discriminate| |discriminate].
  destruct (make_paginated_pmt_request _ _ _ _ _) as [[[[data flag]|e] w1]|];
    try discriminate.
  destruct data as [|x l]; cbn [truthy negb]; intros H.
  - assert (Ht : text = "Unable to fetch location data.") by congruence.
    rewrite Ht. discriminate.
  - assert (Ht : text = render (x :: l) flag) by congruence.
    destruct (format_list_response_head (x :: l) flag) as (c & rest & Heq & Hc);
      [discriminate|].
    rewrite Ht, Heq. destruct Hc as [-> | ->]; discriminate.
Qed.

End Tool.

(** * The scenarios *)

(** C6: at the failing input.  The listing answers with an empty [data]
    and an empty [paging]; the fetch is complete and empty; the tool
    answers with the text it uses for a failed fetch, not with the
    placeholder that [format_list_response] holds for an empty list. *)
Theorem get_locations_empty_collection (py_str : pyval -> string) :
  option_map fst
    (make_paginated_pmt_request b64encode_bytes empty_listing_remote 5
       "https://api.example/listings/v3/acct/locations?pagesize=100"
       (start_world full_env))
  = Some (Ret ([], true))
  /\ option_map fst
       (get_locations b64encode_bytes py_str empty_listing_remote 5 (start_world full_env))
     = Some (Ret "Unable to fetch location data.")
  /\ format_list_response py_str [] true = "The response was empty...".
Proof. repeat split; vm_compute; reflexivity. Qed.

(** C4: at the failing input.  With id and secret set and
    [PINMETO_API_URL] absent, no [EnvironmentError] is raised: the exchange
    is sent to ["None/oauth/token"], and the call ends with the failure of
    that POST. *)
Theorem get_token_without_api_url_posts :
  fst (get_pmt_access_token_async b64encode_bytes auth_unreachable_remote
         (start_world env_no_url))
  = Raise NetworkError
  /\ http_calls
       (snd (get_pmt_access_token_async b64encode_bytes auth_unreachable_remote
               (start_world env_no_url)))
     = [POST "None/oauth/token"
          [("Authorization", "Basic YXBwLTE6czNjcmV0");
           ("Content-Type", "application/x-www-form-urlencoded")]
          [("grant_type", "client_credentials")]].
Proof. split; vm_compute; reflexivity. Qed.


(** C5, counterexample to the claim as stated: the token cannot be obtained
    (the application secret is not configured) and the request raises
    instead of returning [None]. *)
Lemma make_pmt_request_raises_without_secret :
  fst (make_pmt_request b64encode_bytes two_pages_remote (PStr "p1")
         (start_world env_no_secret))
  = Raise EnvironmentError.
Proof. vm_compute. reflexivity. Qed.

(** C1, counterexample to the claim as stated: a chain of one page whose
    request succeeds with the body [{}]; the flag returned is [False]. *)
Lemma fetch_all_empty_object_incomplete :
  (exists w',
     page_chain b64encode_bytes empty_object_remote (PStr "p1") (start_world full_env)
       [PDict []] PNone w')
  /\ option_map fst
       (make_paginated_pmt_request b64encode_bytes empty_object_remote 5 "p1"
          (start_world full_env))
     = Some (Ret ([], false)).
Proof.
  split.
  - eexists.
    eapply chain_cons;
      [reflexivity | do 4 eexists; repeat split; reflexivity | reflexivity | ].
    apply chain_nil.
  - vm_compute. reflexivity.
Qed.


(** C7, run: the authorization endpoint answers 503. *)
Lemma get_token_exchange_error_propagates_witness :
  exists w',
    get_pmt_access_token_async b64encode_bytes auth_down_remote (start_world full_env)
      = (Raise (HTTPStatusError 503), w')
    /\ exchange_calls w' = 1
    /\ _cached_token w' = None.
Proof.
  destruct (get_token_exchange_error_propagates b64encode_bytes auth_down_remote
              (start_world full_env) (HTTPStatusError 503) eq_refl
              (conj eq_refl eq_refl) (exchange_bad_status 503 None eq_refl))
    as (w' & Hrun & _ & Hcalls & Hcache & _).
  exists w'. repeat split; assumption.
Defined.

(** C5, run: the second page times out, the first one is served. *)
Lemma make_pmt_request_absorbs_get_failures_witness :
  fst (make_pmt_request b64encode_bytes timeout_remote (PStr "p2") (start_world full_env))
    = Ret PNone
  /\ fst (make_pmt_request b64encode_bytes timeout_remote (PStr "p1") (start_world full_env))
     = Ret first_page.
Proof.
  split.
  - destruct (make_pmt_request_absorbs_get_failures b64encode_bytes timeout_remote
                (PStr "p2") (start_world full_env)) as [Hok _].
    destruct (Hok "tok-1" _ eq_refl) as (_ & Hfail & _).
    rewrite (Hfail "p2" TimeoutException eq_refl get_timed_out). reflexivity.
  - destruct (make_pmt_request_absorbs_get_failures b64encode_bytes timeout_remote
                (PStr "p1") (start_world full_env)) as [Hok _].
    destruct (Hok "tok-1" _ eq_refl) as (_ & _ & Hbody).
    rewrite (Hbody "p1" 200%Z first_page eq_refl eq_refl eq_refl). reflexivity.
Defined.

(** C1, run: two pages, three items. *)
Lemma fetch_all_complete_witness :
  exists w',
    make_paginated_pmt_request b64encode_bytes two_pages_remote 2 "p1"
      (start_world full_env)
    = Some (Ret ([item 1; item 2; item 3], true), w').
Proof.
  eexists.
  apply (fetch_all_complete b64encode_bytes two_pages_remote "p1" (start_world full_env)
           [page1_of_2; page2_of_2] PNone).
  - walk_chain.
  - reflexivity.
  - repeat constructor.
  - cbn. lia.
Defined.

(** C2, run: the second page times out. *)
Lemma fetch_all_stops_at_first_failure_witness :
  exists w'',
    make_paginated_pmt_request b64encode_bytes timeout_remote 5 "p1"
      (start_world full_env)
    = Some (Ret ([item 1], false), w'').
Proof.
  edestruct (fetch_all_stops_at_first_failure b64encode_bytes timeout_remote "p1"
               (start_world full_env) [first_page] (PStr "p2")) with (fuel := 5)
    as [Hrun _].
  - walk_chain.
  - reflexivity.
  - vm_compute. reflexivity.
  - cbn. lia.
  - eexists. exact Hrun.
Defined.

(** C10, run: the second page is served with the body [{}]. *)
Lemma fetch_all_falsy_body_is_failure_witness :
  exists w'',
    make_paginated_pmt_request b64encode_bytes empty_object_second_remote 5 "p1"
      (start_world full_env)
    = Some (Ret ([item 1], false), w'').
Proof.
  edestruct (fetch_all_falsy_body_is_failure b64encode_bytes
               empty_object_second_remote "p1" (start_world full_env)
               [first_page] (PStr "p2")) with (body := PDict []) (fuel := 5)
    as [Hrun _].
  - walk_chain.
  - reflexivity.
  - do 4 eexists; repeat split; first [reflexivity | vm_compute; reflexivity].
  - reflexivity.
  - cbn. lia.
  - eexists. exact Hrun.
Defined.

(** C8, run: the chain p1, p2 is finite and its links are pairwise
    distinct; the call returns once the fuel covers it. *)
Lemma fetch_all_terminates_witness :
  exists n items w',
    forall fuel,
      n <= fuel ->
      make_paginated_pmt_request b64encode_bytes two_pages_remote fuel "p1"
        (start_world full_env)
      = Some (Ret (items, true), w').
Proof.
  apply (fetch_all_terminates b64encode_bytes two_pages_remote "p1"
           (start_world full_env) Exhausted).
  eapply chain_page;
    [ reflexivity | vm_compute; reflexivity | reflexivity | reflexivity
    | intros [H|[]]; discriminate H | ].
  eapply chain_page;
    [ reflexivity | vm_compute; reflexivity | reflexivity | reflexivity
    | intros [H|[H|[]]]; discriminate H | ].
  apply chain_no_page. reflexivity.
Defined.


(** * Further properties of the credential cache *)

Section TokenCacheMore.

Variable b64encode : string -> string.
Variable net : Remote.

Local Abbreviation fetch := (_fetch_and_store_token b64encode net).
Local Abbreviation get_token := (get_pmt_access_token_async b64encode net).
Local Abbreviation now_at w := (time_time net (clock_reads w)).

(** What an exchange leaves behind: the cache, the clock count and the
    globals are never touched; a token that is returned is non-empty and is
    the value stored under [PMT_ACCESS_TOKEN]; when the exchange raises the
    environment is as before. *)
Lemma fetch_leaves (w : World) :
  _cached_token_time (snd (fetch w)) = _cached_token_time w /\
  clock_reads (snd (fetch w)) = clock_reads w /\
  warnings_logged (snd (fetch w)) = warnings_logged w /\
  match fst (fetch w) with
  | Ret t => str_truthy t = true /\
             environ (snd (fetch w)) !! "PMT_ACCESS_TOKEN" = Some t
  | Raise _ => environ (snd (fetch w)) = environ w
  end.
Proof.
  unfold _fetch_and_store_token.
  destruct (negb _ || _ || _).
  - py_step. repeat split.
    unfold warnings_logged, add_log. cbn [log_records].
    rewrite List.filter_app. cbn. rewrite app_nil_r. reflexivity.
  - fetch_paths ltac:(repeat split; try reflexivity; apply lookup_insert_eq).
Qed.

Lemma fetch_success_credentials (w : World) (t : string) (w1 : World) :
  fetch w = (Ret t, w1) -> credentials_set w.
Proof.
  unfold _fetch_and_store_token, credentials_set.
  rewrite token_url_truthy. cbn [negb orb].
  destruct (opt_truthy (environ w !! "PINMETO_APP_ID"));
    destruct (opt_truthy (environ w !! "PINMETO_APP_SECRET")); cbn [negb orb];
    try (py_step; discriminate).
  auto.
Qed.

(** Past the guard exactly one POST is sent, whatever comes back. *)
Lemma fetch_posts_once (w : World) :
  credentials_set w ->
  exchange_calls (snd (fetch w)) = S (exchange_calls w).
Proof.
  intros [Hid Hsec]. unfold _fetch_and_store_token.
  rewrite token_url_truthy, Hid, Hsec. cbn [orb negb].
  fetch_paths ltac:(exact (exchange_calls_add_post (token_post b64encode w) w eq_refl)).
Qed.

(** X1.  A call that raises, for whatever reason, leaves the cached token and
    its issuance time as they were. *)
Theorem get_token_failure_keeps_cache (w : World) (e : exn) (w' : World) :
  get_token w = (Raise e, w') ->
  _cached_token w' = _cached_token w /\
  _cached_token_time w' = _cached_token_time w.
Proof.
  intros Hrun.
  destruct (cache_fresh w (now_at w)) eqn:Hfresh.
  - rewrite (get_token_fresh b64encode net w Hfresh) in Hrun. discriminate.
  - rewrite (get_token_stale b64encode net w Hfresh) in Hrun.
    pose proof (fetch_frame b64encode net (tick w)) as [_ Hcache].
    pose proof (fetch_leaves (tick w)) as (Htime & _).
    destruct (fetch (tick w)) as [[t|e1] w1]; [discriminate|].
    cbn [snd] in *. inversion Hrun; subst. auto.
Qed.

(** X2.  A token that is returned is never empty, and it is the token the cache
    holds after the call. *)
Theorem get_token_returns_cached (w : World) (t : string) (w' : World) :
  get_token w = (Ret t, w') ->
  str_truthy t = true /\ _cached_token w' = Some t.
Proof.
  intros Hrun.
  destruct (cache_fresh w (now_at w)) eqn:Hfresh.
  - rewrite (get_token_fresh b64encode net w Hfresh) in Hrun.
    unfold cache_fresh in Hfresh. apply andb_true_iff in Hfresh as [Hc _].
    destruct (_cached_token w) as [c|] eqn:Hcache; [|discriminate].
    inversion Hrun; subst. cbn [tick _cached_token]. auto.
  - rewrite (get_token_stale b64encode net w Hfresh) in Hrun.
    pose proof (fetch_leaves (tick w)) as (_ & _ & _ & Hout).
    destruct (fetch (tick w)) as [[t1|e1] w1]; [|discriminate].
    cbn [fst snd] in Hout. inversion Hrun; subst.
    split; [apply Hout|reflexivity].
Qed.

(** X3.  The publication of the token is an invariant of the cache: when the
    cached token is the value of [PMT_ACCESS_TOKEN] before a call, it is so
    after the call, whether the call is served from the cache, refreshes
    the token or raises. *)
Theorem get_token_keeps_published (w : World) :
  token_published w -> token_published (snd (get_token w)).
Proof.
  intros Hpub.
  destruct (cache_fresh w (now_at w)) eqn:Hfresh.
  - rewrite (get_token_fresh b64encode net w Hfresh). exact Hpub.
  - rewrite (get_token_stale b64encode net w Hfresh).
    pose proof (fetch_frame b64encode net (tick w)) as [_ Hcache].
    pose proof (fetch_leaves (tick w)) as (_ & _ & _ & Hout).
    destruct (fetch (tick w)) as [[t1|e1] w1]; cbn [fst snd] in *.
    + intros t Ht. cbn [set_cache _cached_token environ] in *.
      inversion Ht; subst. apply Hout.
    + intros t Ht. rewrite Hcache in Ht. rewrite Hout. exact (Hpub t Ht).
Qed.

(** X4.  The window is 3540 seconds, the bound excluded.  After a call that
    refreshed the token at time [now], the next call is served from the
    cache with no HTTP call when its clock reading is less than 3540
    seconds later, and sends exactly one new exchange otherwise. *)
Theorem get_token_expiry_boundary (w : World) (t : string) (w1 : World) :
  cache_fresh w (now_at w) = false ->
  get_token w = (Ret t, w1) ->
  (now_at w1 - now_at w < 3540 ->
   get_token w1 = (Ret t, tick w1))%Z
  /\
  (3540 <= now_at w1 - now_at w ->
   exchange_calls (snd (get_token w1)) = S (exchange_calls w1))%Z.
Proof.
  intros Hstale Hrun.
  rewrite (get_token_stale b64encode net w Hstale) in Hrun.
  pose proof (fetch_leaves (tick w)) as (_ & _ & _ & Hout).
  pose proof (fetch_frame b64encode net (tick w)) as [Hcfg _].
  destruct (fetch (tick w)) as [[t1|e1] w0] eqn:Hfetch; [|discriminate].
  cbn [fst snd] in *. inversion Hrun; subst t1 w1. clear Hrun.
  destruct Hout as [Ht _].
  set (w1 := set_cache t (now_at w) w0).
  assert (Htime : _cached_token_time w1 = now_at w) by reflexivity.
  assert (Hcache : _cached_token w1 = Some t) by reflexivity.
  split; intros Hgap.
  - assert (Hfresh : cache_fresh w1 (now_at w1) = true).
    { unfold cache_fresh. rewrite Hcache, Htime. cbn [opt_truthy]. rewrite Ht.
      apply Z.ltb_lt. exact Hgap. }
    rewrite (get_token_fresh b64encode net w1 Hfresh), Hcache. reflexivity.
  - assert (Hfresh : cache_fresh w1 (now_at w1) = false).
    { unfold cache_fresh. rewrite Htime. apply andb_false_iff. right.
      apply Z.ltb_ge. exact Hgap. }
    rewrite (get_token_stale b64encode net w1 Hfresh).
    assert (Hcred : credentials_set (tick w1)).
    { pose proof (fetch_success_credentials (tick w) t w0 Hfetch) as [Hid Hsec].
      unfold config in Hcfg. inversion Hcfg as [[Hu Hi Hs]].
      unfold credentials_set, w1. cbn [tick set_cache environ] in *.
      rewrite Hi, Hs. auto. }
    pose proof (fetch_posts_once (tick w1) Hcred) as Hposts.
    destruct (fetch (tick w1)) as [[t2|e2] w2]; cbn [snd] in *; exact Hposts.
Qed.

(** X7.  An [access_token] that is present but falsy (null, empty, zero) is
    treated as missing, and one that is truthy but not a string cannot be
    stored: the exchange raises [KeyError], respectively [TypeError],
    after its POST, and nothing is written to the environment. *)
Theorem fetch_rejects_unusable_token (w : World) (s : Z)
    (kvs : list (string * pyval)) (v : pyval) :
  credentials_set w ->
  token_reply b64encode net w = Reply s (Some (PDict kvs)) ->
  is_success s = true ->
  dict_lookup "access_token" kvs = Some v ->
  (truthy v = false ->
   fetch w = (Raise KeyError, add_call (token_post b64encode w) w))
  /\
  (truthy v = true -> (forall t, v <> PStr t) ->
   fetch w = (Raise TypeError, add_call (token_post b64encode w) w)).
Proof.
  intros [Hid Hsec] Hrep Hs Hkey.
  unfold _fetch_and_store_token.
  rewrite token_url_truthy, Hid, Hsec. cbn [orb negb].
  unfold token_reply, token_post in Hrep.
  py_step. rewrite Hrep, Hs. py_step. rewrite Hkey. cbn [default from_option id].
  split.
  - intros Hv. rewrite Hv. reflexivity.
  - intros Hv Hstr. rewrite Hv.
    destruct v; try reflexivity. exfalso. exact (Hstr s0 eq_refl).
Qed.

End TokenCacheMore.

(** * Further properties of the paginated fetch *)

Section WalkMore.

Variable b64encode : string -> string.
Variable net : Remote.

Local Abbreviation get_token := (get_pmt_access_token_async b64encode net).
Local Abbreviation request := (make_pmt_request b64encode net).
Local Abbreviation loop := (paginated_loop b64encode net).
Local Abbreviation fetch_all := (make_paginated_pmt_request b64encode net).
Local Abbreviation chain := (page_chain b64encode net).
Local Abbreviation now_at w := (time_time net (clock_reads w)).

(** A truthy response that cannot be read as a page: the exception leaves
    the loop. *)
Lemma loop_unreadable_page (fuel : nat) (acc : list pyval) (url : pyval) (w : World)
    (body : pyval) (w1 : World) (e : exn) :
  truthy url = true ->
  request url w = (Ret body, w1) ->
  truthy body = true ->
  read_page body = Raise e ->
  loop (S fuel) acc url w = Some (Raise e, w1).
Proof.
  intros Hu Hreq Hbody Hread. cbn [paginated_loop].
  rewrite Hu, Hreq, Hbody, Hread. reflexivity.
Qed.

Lemma loop_request_raises (fuel : nat) (acc : list pyval) (url : pyval) (w : World)
    (e : exn) (w1 : World) :
  truthy url = true ->
  request url w = (Raise e, w1) ->
  loop (S fuel) acc url w = Some (Raise e, w1).
Proof.
  intros Hu Hreq. cbn [paginated_loop]. rewrite Hu, Hreq. reflexivity.
Qed.

(** X8.  The walk does raise.  When pages 1..k-1 are served and page k is served
    with a truthy body that is not readable as a page (not an object, a
    [data] that cannot be iterated, a [paging] that is not an object), the
    exception of the failed read reaches the caller and the items of pages
    1..k-1 are lost with it. *)
Theorem fetch_all_raises_on_unreadable_page (url : string) (w : World)
    (prefix : list pyval) (url_k : pyval) (w_k : World) (body : pyval)
    (w' : World) (e : exn) (fuel : nat) :
  chain (PStr url) w prefix url_k w_k ->
  truthy url_k = true ->
  request_succeeds b64encode net url_k w_k body w' ->
  truthy body = true ->
  read_page body = Raise e ->
  length prefix < fuel ->
  fetch_all fuel url w = Some (Raise e, w').
Proof.
  intros Hchain Hk Hsucc Hbody Hread Hfuel.
  unfold make_paginated_pmt_request.
  replace fuel with (length prefix + S (fuel - S (length prefix))) by lia.
  rewrite (loop_follows_chain b64encode net _ _ _ _ _ Hchain
             (chain_prefix_truthy b64encode net _ _ _ _ _ Hchain Hk)).
  apply (loop_unreadable_page _ _ url_k w_k body w' e Hk
           (request_succeeds_returns b64encode net url_k w_k body w' Hsucc) Hbody Hread).
Qed.

(** X9.  A token failure in the middle of a walk is not turned into a partial
    result: when pages 1..k-1 are served and no token can be obtained for
    the request of page k, the exception of the token call reaches the
    caller of the walk. *)
Theorem fetch_all_propagates_token_failure (url : string) (w : World)
    (prefix : list pyval) (url_k : pyval) (w_k : World) (e : exn) (w' : World)
    (fuel : nat) :
  chain (PStr url) w prefix url_k w_k ->
  truthy url_k = true ->
  get_token w_k = (Raise e, w') ->
  length prefix < fuel ->
  fetch_all fuel url w = Some (Raise e, w').
Proof.
  intros Hchain Hk Htok Hfuel.
  unfold make_paginated_pmt_request.
  replace fuel with (length prefix + S (fuel - S (length prefix))) by lia.
  rewrite (loop_follows_chain b64encode net _ _ _ _ _ Hchain
             (chain_prefix_truthy b64encode net _ _ _ _ _ Hchain Hk)).
  apply (loop_request_raises _ _ url_k w_k e w' Hk
           (request_raises b64encode net url_k w_k e w' Htok)).
Qed.

Lemma warnings_logged_add_log (r : log_record) (w : World) :
  warnings_logged (add_log r w) =
  warnings_logged w + (if is_pages_warning r then 1 else 0).
Proof.
  unfold warnings_logged, add_log. cbn [log_records].
  rewrite List.filter_app, List.length_app. cbn [List.filter].
  destruct (is_pages_warning r); reflexivity.
Qed.

Lemma get_token_warnings (w : World) :
  warnings_logged (snd (get_token w)) = warnings_logged w.
Proof.
  destruct (cache_fresh w (now_at w)) eqn:Hfresh.
  - rewrite (get_token_fresh b64encode net w Hfresh). reflexivity.
  - rewrite (get_token_stale b64encode net w Hfresh).
    pose proof (fetch_leaves b64encode net (tick w)) as (_ & _ & Hwarn & _).
    destruct (_fetch_and_store_token b64encode net (tick w)) as [[t|e] w1];
      cbn [snd] in *; exact Hwarn.
Qed.

Lemma request_warnings (url : pyval) (w : World) :
  warnings_logged (snd (request url w)) = warnings_logged w.
Proof.
  rewrite (request_unfold b64encode net).
  pose proof (get_token_warnings w) as Htok.
  destruct (get_token w) as [[tok|e] w1]; cbn [snd] in *; [|exact Htok].
  rewrite <- Htok. unfold try_except, client_get.
  destruct url as [ | | | |u| | ]; py_step;
    try (rewrite warnings_logged_add_log; cbn [is_pages_warning add_call]; lia).
  destruct (http_get net u (request_headers tok)) as [f|s [body|]]; py_step;
    try destruct (is_success s); py_step;
    try reflexivity; rewrite warnings_logged_add_log;
    cbn [is_pages_warning]; unfold warnings_logged; cbn [log_records add_call]; lia.
Qed.

Lemma loop_warnings (fuel : nat) :
  forall acc url w r w',
    loop fuel acc url w = Some (r, w') ->
    warnings_logged w' =
    warnings_logged w + match r with
                        | Ret (_, false) => 1
                        | _ => 0
                        end.
Proof.
  induction fuel as [|fuel IH]; intros acc url w r w' Hrun; cbn [paginated_loop] in Hrun.
  - destruct (negb (truthy url)); [|discriminate]. inversion Hrun; subst. lia.
  - destruct (negb (truthy url)); [inversion Hrun; subst; lia|].
    pose proof (request_warnings url w) as Hreq.
    destruct (request url w) as [[resp|e] w1]; cbn [snd] in *;
      [|inversion Hrun; subst; lia].
    destruct (negb (truthy resp)).
    { inversion Hrun; subst. rewrite warnings_logged_add_log.
      cbn [is_pages_warning]. lia. }
    destruct (read_page resp) as [[items next]|e]; [|inversion Hrun; subst; lia].
    destruct (negb (truthy next)); [inversion Hrun; subst; lia|].
    rewrite (IH _ _ _ _ _ Hrun). lia.
Qed.

(** X10.  The completeness flag and the warning go together: a walk that returns
    adds exactly one "pages missing" warning to the log when its flag is
    [False], and none when its flag is [True]. *)
Theorem fetch_all_warns_iff_incomplete (fuel : nat) (url : string) (w : World)
    (items : list pyval) (flag : bool) (w' : World) :
  fetch_all fuel url w = Some (Ret (items, flag), w') ->
  warnings_logged w' = warnings_logged w + (if flag then 0 else 1).
Proof.
  intros Hrun. unfold make_paginated_pmt_request in Hrun.
  rewrite (loop_warnings fuel _ _ _ _ _ Hrun). destruct flag; reflexivity.
Qed.

End WalkMore.

(** * Further properties of the rendering, the tools and the start-up *)

Section ToolMore.

Variable b64encode : string -> string.
Variable py_str : pyval -> string.
Variable net : Remote.

Local Abbreviation get_token := (get_pmt_access_token_async b64encode net).
Local Abbreviation request := (make_pmt_request b64encode net).
Local Abbreviation loop := (paginated_loop b64encode net).
Local Abbreviation chain := (page_chain b64encode net).
Local Abbreviation render := (format_list_response py_str).
Local Abbreviation tool_location := (get_location b64encode py_str net).
Local Abbreviation tool_locations := (get_locations b64encode py_str net).
Local Abbreviation startup := (main_startup b64encode net).
Local Abbreviation now_at w := (time_time net (clock_reads w)).

Lemma str_app_assoc (a b c : string) : (a +:+ b) +:+ c = a +:+ (b +:+ c).
Proof.
  induction a as [|x a IH]; [reflexivity|].
  change (String x ((a +:+ b) +:+ c) = String x (a +:+ (b +:+ c))).
  rewrite IH. reflexivity.
Qed.

Lemma str_app_empty_r (a : string) : a +:+ "" = a.
Proof.
  induction a as [|x a IH]; [reflexivity|].
  change (String x (a +:+ "") = String x a).
  rewrite IH. reflexivity.
Qed.

(** The accumulation of the [for] loop, in closed form. *)
Lemma fold_left_item_blocks (response : list pyval) :
  forall init,
    fold_left
      (fun msg result => msg +:+ (nl +:+ py_str result +:+ nl +:+ str_mul "-" 20))
      response init
    = init +:+ item_blocks py_str response.
Proof.
  induction response as [|x l IH]; intros init; cbn [fold_left item_blocks].
  - rewrite str_app_empty_r. reflexivity.
  - rewrite IH. unfold item_block. rewrite str_app_assoc. reflexivity.
Qed.

(** X11.  The layout of the text for a non-empty collection: the warning line
    and a newline when the fetch was incomplete, then a divider of twenty
    dashes, then for each item in order a newline, its [str], a newline
    and a divider. *)
Theorem format_list_response_layout (response : list pyval) (flag : bool) :
  response <> [] ->
  render response flag =
    (if flag then "" else warning_line +:+ nl)
    +:+ str_mul "-" 20 +:+ item_blocks py_str response.
Proof.
  intros Hne. destruct response as [|x l]; [congruence|].
  unfold format_list_response. rewrite fold_left_item_blocks.
  destruct flag; cbn [negb].
  - reflexivity.
  - unfold warning_line. rewrite !str_app_assoc. reflexivity.
Qed.

(** X12.  The text for an incomplete fetch is the text for the same items
    fetched completely, with the warning line put in front. *)
Theorem format_list_response_incomplete_prefix (response : list pyval) :
  response <> [] ->
  render response false = warning_line +:+ nl +:+ render response true.
Proof.
  intros Hne. destruct response as [|x l]; [congruence|].
  unfold format_list_response. rewrite !fold_left_item_blocks.
  cbn [negb]. unfold warning_line. rewrite !str_app_assoc. reflexivity.
Qed.

(** X13.  Once the start-up has assigned the globals, an API address or an
    account id that is [None] or empty makes both tools answer with the
    fixed text and do nothing else: no clock reading, no token, no HTTP
    call, no log record.  ([__ACCOUNT_ID] is read only when
    [__PMT_API_URL] is non-empty.) *)
Theorem tools_report_missing_configuration (store_id : string) (fuel : nat)
    (w : World) :
  PMT_API_URL_is_bound w = true ->
  opt_truthy (__PMT_API_URL w) = false \/
  (ACCOUNT_ID_is_bound w = true /\ opt_truthy (__ACCOUNT_ID w) = false) ->
  tool_location store_id w = (Ret missing_configuration_text, w) /\
  tool_locations fuel w = Some (Ret missing_configuration_text, w).
Proof.
  intros Hbound H. unfold get_location, get_locations.
  assert (Hguard : globals_missing w = Ret true).
  { unfold globals_missing. rewrite Hbound. cbn [negb].
    destruct H as [H|[Hb H]].
    - rewrite H. reflexivity.
    - rewrite Hb, H. cbn [negb]. destruct (opt_truthy (__PMT_API_URL w)); reflexivity. }
  rewrite Hguard. split; reflexivity.
Qed.

(** X22.  Before the start-up block has run (the module imported, or a
    call ahead of the assignments) [__PMT_API_URL] is not bound: both
    tools raise [NameError] at their first line and do nothing else. *)
Theorem tools_raise_before_startup (store_id : string) (fuel : nat) (w : World) :
  PMT_API_URL_is_bound w = false ->
  tool_location store_id w = (Raise NameError, w) /\
  tool_locations fuel w = Some (Raise NameError, w).
Proof.
  intros Hunbound. unfold get_location, get_locations, globals_missing.
  rewrite Hunbound. split; reflexivity.
Qed.

Lemma tools_guard_passes (w : World) :
  tools_configured w -> globals_missing w = Ret false.
Proof.
  intros [Ha Hb]. apply andb_true_iff in Ha as [Ha1 Ha2], Hb as [Hb1 Hb2].
  unfold globals_missing. rewrite Ha1, Ha2, Hb1, Hb2. reflexivity.
Qed.

(** X14.  The single-entity tool, once a token is at hand: one GET to
    [<api>/listings/v3/<account>/locations/<store_id>]; a failed GET and a
    reply with a falsy body (such as [{}]) both give the "unable to fetch"
    text, any other reply gives the [str] of its body. *)
Theorem get_location_outcomes (store_id : string) (w : World) (tok : string)
    (w1 : World) :
  tools_configured w ->
  get_token w = (Ret tok, w1) ->
  (forall e,
     get_failure (http_get net (location_url w store_id) (request_headers tok)) e ->
     tool_location store_id w =
       (Ret "Unable to fetch location data.",
        add_log (LogRequestFailed e)
          (add_call (GET (location_url w store_id) (request_headers tok)) w1)))
  /\
  (forall s body,
     http_get net (location_url w store_id) (request_headers tok)
       = Reply s (Some body) ->
     is_success s = true ->
     tool_location store_id w =
       (Ret (if truthy body then py_str body else "Unable to fetch location data."),
        add_call (GET (location_url w store_id) (request_headers tok)) w1)).
Proof.
  intros Hcfg Htok. split.
  - intros e Hfail. unfold get_location.
    rewrite (tools_guard_passes w Hcfg); cbv iota. unfold py_bind.
    fold (location_url w store_id).
    rewrite (request_get_failure b64encode net _ w tok w1 e Htok Hfail).
    reflexivity.
  - intros s body Hrep Hs. unfold get_location.
    rewrite (tools_guard_passes w Hcfg); cbv iota. unfold py_bind.
    fold (location_url w store_id).
    rewrite (request_get_success b64encode net _ w tok w1 s body Htok Hrep Hs).
    destruct (truthy body); reflexivity.
Qed.

(** X15.  Neither tool turns a token failure into text: with the globals set,
    the exception of the token call leaves the tool. *)
Theorem tools_propagate_token_failure (store_id : string) (fuel : nat) (w : World)
    (e : exn) (w1 : World) :
  tools_configured w ->
  get_token w = (Raise e, w1) ->
  tool_location store_id w = (Raise e, w1) /\
  tool_locations (S fuel) w = Some (Raise e, w1).
Proof.
  intros Hcfg Htok. split.
  - unfold get_location. rewrite (tools_guard_passes w Hcfg); cbv iota. unfold py_bind.
    rewrite (request_raises b64encode net _ w e w1 Htok). reflexivity.
  - unfold get_locations. rewrite (tools_guard_passes w Hcfg); cbv iota.
    unfold make_paginated_pmt_request. cbn [paginated_loop].
    rewrite (request_raises b64encode net _ w e w1 Htok).
    destruct (__PMT_API_URL w) as [[|c a]|]; reflexivity.
Qed.

(** X16.  When the request of the first page of the listing brings no response
    (or a falsy one), the collection tool answers with the "unable to
    fetch" text. *)
Theorem get_locations_first_page_fails (fuel : nat) (w : World) (resp : pyval)
    (w1 : World) :
  tools_configured w ->
  request (PStr (locations_url w)) w = (Ret resp, w1) ->
  truthy resp = false ->
  tool_locations (S fuel) w =
    Some (Ret "Unable to fetch location data.", add_log LogPagesMissing w1).
Proof.
  intros Hcfg Hreq Hresp. unfold get_locations.
  rewrite (tools_guard_passes w Hcfg); cbv iota.
  fold (locations_url w). unfold make_paginated_pmt_request.
  assert (Hurl : truthy (PStr (locations_url w)) = true).
  { unfold locations_url. destruct (fstr (__PMT_API_URL w)); reflexivity. }
  rewrite (loop_no_response b64encode net fuel [] _ w resp w1 Hurl Hreq Hresp).
  reflexivity.
Qed.

(** X17.  A listing that breaks off after at least one item: the collection tool
    answers with the warning line, the divider, and the items of the pages
    fetched before the failure. *)
Theorem get_locations_partial_listing (fuel : nat) (w : World)
    (prefix : list pyval) (url_k : pyval) (w_k : World) (resp : pyval)
    (w' : World) :
  tools_configured w ->
  chain (PStr (locations_url w)) w prefix url_k w_k ->
  truthy url_k = true ->
  request url_k w_k = (Ret resp, w') ->
  truthy resp = false ->
  concat (map page_items prefix) <> [] ->
  length prefix < fuel ->
  tool_locations fuel w =
    Some (Ret (warning_line +:+ nl +:+ str_mul "-" 20
               +:+ item_blocks py_str (concat (map page_items prefix))),
          add_log LogPagesMissing w').
Proof.
  intros Hcfg Hchain Hk Hreq Hresp Hitems Hfuel. unfold get_locations.
  rewrite (tools_guard_passes w Hcfg); cbv iota.
  fold (locations_url w). unfold make_paginated_pmt_request.
  replace fuel with (length prefix + S (fuel - S (length prefix))) by lia.
  rewrite (loop_follows_chain b64encode net _ _ _ _ _ Hchain
             (chain_prefix_truthy b64encode net _ _ _ _ _ Hchain Hk)).
  rewrite (loop_no_response b64encode net _ _ url_k w_k resp w' Hk Hreq Hresp).
  cbn [app].
  destruct (concat (map page_items prefix)) as [|x l] eqn:Hdata; [congruence|].
  cbn [truthy negb].
  unfold format_list_response. rewrite fold_left_item_blocks. cbn [negb].
  unfold warning_line. rewrite !str_app_assoc. reflexivity.
Qed.

End ToolMore.

Section StartupProps.

Variable b64encode : string -> string.
Variable py_str : pyval -> string.
Variable net : Remote.

Local Abbreviation fetch := (_fetch_and_store_token b64encode net).
Local Abbreviation get_token := (get_pmt_access_token_async b64encode net).
Local Abbreviation startup := (main_startup b64encode net).
Local Abbreviation tool_location := (get_location b64encode py_str net).
Local Abbreviation now_at w := (time_time net (clock_reads w)).

(** The blocking and the asynchronous variant run the same steps on the
    same cache. *)
Lemma get_pmt_access_token_same (w : World) :
  get_pmt_access_token b64encode net w = get_token w.
Proof. reflexivity. Qed.

(** An exchange writes to [PMT_ACCESS_TOKEN] only. *)
Lemma fetch_environ_other (k : string) (w : World) :
  k <> "PMT_ACCESS_TOKEN" ->
  environ (snd (fetch w)) !! k = environ w !! k.
Proof.
  intros Hk. unfold _fetch_and_store_token.
  destruct (negb _ || _ || _).
  - reflexivity.
  - fetch_paths ltac:(try reflexivity; cbn [environ set_environ add_call];
                      rewrite lookup_insert_ne by congruence; reflexivity).
Qed.

(** X19.  Start-up stops at a missing or empty application id or secret: the
    [EnvironmentError] leaves the block before the two globals are
    assigned (and before [mcp.run]), and no HTTP call has been made. *)
Theorem main_startup_aborts_without_credentials (w : World) :
  cache_fresh w (now_at w) = false ->
  opt_truthy (environ w !! "PINMETO_APP_ID") = false \/
  opt_truthy (environ w !! "PINMETO_APP_SECRET") = false ->
  exists w',
    startup w = (Raise EnvironmentError, w') /\
    http_calls w' = http_calls w /\
    __PMT_API_URL w' = __PMT_API_URL w /\
    __ACCOUNT_ID w' = __ACCOUNT_ID w /\
    _cached_token w' = _cached_token w.
Proof.
  intros Hstale Hcred. unfold main_startup, py_bind.
  rewrite get_pmt_access_token_same, (get_token_stale b64encode net w Hstale).
  rewrite (fetch_missing_credentials b64encode net (tick w) Hcred).
  eexists. split; [reflexivity|]. repeat split.
Qed.

(** X20.  After a start-up that went through, a non-empty token is cached and
    the two globals hold what the environment held for [PINMETO_API_URL]
    and [PINMETO_ACCOUNT_ID] (nothing, when a variable is not set). *)
Theorem main_startup_sets_globals (w w1 : World) :
  startup w = (Ret tt, w1) ->
  (exists t, _cached_token w1 = Some t /\ str_truthy t = true) /\
  __PMT_API_URL w1 = environ w !! "PINMETO_API_URL" /\
  __ACCOUNT_ID w1 = environ w !! "PINMETO_ACCOUNT_ID".
Proof.
  unfold main_startup, py_bind. rewrite get_pmt_access_token_same.
  destruct (cache_fresh w (now_at w)) eqn:Hfresh.
  - rewrite (get_token_fresh b64encode net w Hfresh). intros Hrun.
    inversion Hrun; subst. cbn [set_globals tick _cached_token __PMT_API_URL
                                __ACCOUNT_ID environ].
    unfold cache_fresh in Hfresh. apply andb_true_iff in Hfresh as [Hc _].
    destruct (_cached_token w) as [c|]; [|discriminate]. eauto.
  - rewrite (get_token_stale b64encode net w Hfresh).
    pose proof (fetch_leaves b64encode net (tick w)) as (_ & _ & _ & Hout).
    pose proof (fetch_environ_other "PINMETO_API_URL" (tick w) ltac:(discriminate))
      as Hurl.
    pose proof (fetch_environ_other "PINMETO_ACCOUNT_ID" (tick w) ltac:(discriminate))
      as Hacct.
    destruct (fetch (tick w)) as [[t|e] w0]; [|discriminate].
    cbn [fst snd] in *. intros Hrun. inversion Hrun; subst.
    cbn [set_globals set_cache _cached_token __PMT_API_URL __ACCOUNT_ID environ].
    destruct Hout as [Ht _]. eauto.
Qed.

(** X21.  The token obtained at start-up serves the first tool call: when the
    start-up performed the exchange and the tool is called less than 3540
    seconds later, the tool sends one GET, carrying that token, to the
    address of the store, and no exchange. *)
Theorem startup_token_serves_first_request (store_id : string) (w w1 : World) :
  cache_fresh w (now_at w) = false ->
  startup w = (Ret tt, w1) ->
  tools_configured w1 ->
  (now_at w1 - now_at w < 3540)%Z ->
  exists t,
    _cached_token w1 = Some t /\
    http_calls (snd (tool_location store_id w1)) =
      (http_calls w1 ++ [GET (location_url w1 store_id) (request_headers t)])%list.
Proof.
  intros Hstale Hrun Hcfg Hgap.
  unfold main_startup, py_bind in Hrun.
  rewrite get_pmt_access_token_same, (get_token_stale b64encode net w Hstale) in Hrun.
  pose proof (fetch_leaves b64encode net (tick w)) as (_ & _ & _ & Hout).
  destruct (fetch (tick w)) as [[t|e] w0]; [|discriminate].
  cbn [fst snd] in *. destruct Hout as [Ht _]. inversion Hrun; subst w1. clear Hrun.
  match goal with |- context [set_globals ?a ?b ?x] => set (w1 := set_globals a b x) end.
  exists t. split; [reflexivity|].
  assert (Hfresh : cache_fresh w1 (now_at w1) = true).
  { unfold cache_fresh. cbn [w1 set_globals set_cache _cached_token
                             _cached_token_time opt_truthy] in *.
    rewrite Ht. apply Z.ltb_lt. exact Hgap. }
  pose proof (get_token_fresh b64encode net w1 Hfresh) as Htok.
  change (fstr (_cached_token w1)) with t in Htok.
  unfold get_location. rewrite (tools_guard_passes w1 Hcfg); cbv iota. unfold py_bind at 1.
  fold (location_url w1 store_id).
  rewrite (request_unfold b64encode net), Htok.
  unfold try_except, client_get. py_step.
  destruct (http_get net (location_url w1 store_id) (request_headers t))
    as [f|s [body|]]; py_step;
    try destruct (is_success s); py_step; try destruct (truthy body); reflexivity.
Qed.

End StartupProps.

(** * Runs of the further properties *)

(** X1, run. *)
Lemma get_token_failure_keeps_cache_witness :
  _cached_token
    (snd (get_pmt_access_token_async b64encode_bytes auth_down_remote
            (start_world full_env))) = None
  /\ _cached_token_time
       (snd (get_pmt_access_token_async b64encode_bytes auth_down_remote
               (start_world full_env))) = 0%Z.
Proof.
  apply (get_token_failure_keeps_cache b64encode_bytes auth_down_remote
           (start_world full_env) (HTTPStatusError 503)).
  vm_compute. reflexivity.
Defined.

(** X2, run. *)
Lemma get_token_returns_cached_witness :
  str_truthy "tok-1" = true
  /\ _cached_token
       (snd (get_pmt_access_token_async b64encode_bytes two_pages_remote
               (start_world full_env))) = Some "tok-1".
Proof.
  apply (get_token_returns_cached b64encode_bytes two_pages_remote
           (start_world full_env) "tok-1").
  vm_compute. reflexivity.
Defined.

(** X3, run. *)
Lemma get_token_keeps_published_witness :
  token_published
    (snd (get_pmt_access_token_async b64encode_bytes two_pages_remote
            (start_world full_env))).
Proof.
  apply (get_token_keeps_published b64encode_bytes two_pages_remote
           (start_world full_env)).
  intros t Ht. discriminate Ht.
Defined.

(** X4, run. *)
Lemma get_token_expiry_boundary_witness :
  (exists w1,
     get_pmt_access_token_async b64encode_bytes two_pages_remote (start_world full_env)
       = (Ret "tok-1", w1)
     /\ get_pmt_access_token_async b64encode_bytes two_pages_remote w1
        = (Ret "tok-1", tick w1))
  /\
  (exists w1,
     get_pmt_access_token_async b64encode_bytes slow_clock_remote (start_world full_env)
       = (Ret "tok-1", w1)
     /\ exchange_calls
          (snd (get_pmt_access_token_async b64encode_bytes slow_clock_remote w1))
        = S (exchange_calls w1)).
Proof.
  split.
  - exists (snd (get_pmt_access_token_async b64encode_bytes two_pages_remote
                   (start_world full_env))).
    split; [vm_compute; reflexivity|].
    refine (proj1 (get_token_expiry_boundary b64encode_bytes two_pages_remote
                     (start_world full_env) "tok-1" _ eq_refl _) _).
    + vm_compute. reflexivity.
    + vm_compute. reflexivity.
  - exists (snd (get_pmt_access_token_async b64encode_bytes slow_clock_remote
                   (start_world full_env))).
    split; [vm_compute; reflexivity|].
    refine (proj2 (get_token_expiry_boundary b64encode_bytes slow_clock_remote
                     (start_world full_env) "tok-1" _ eq_refl _) _).
    + vm_compute. reflexivity.
    + vm_compute. discriminate.
Defined.

(** X7, run. *)
Lemma fetch_rejects_unusable_token_witness :
  fst (_fetch_and_store_token b64encode_bytes null_token_remote (start_world full_env))
  = Raise KeyError.
Proof.
  destruct (fetch_rejects_unusable_token b64encode_bytes null_token_remote
              (start_world full_env) 200%Z [("access_token", PNone)] PNone
              (conj eq_refl eq_refl) eq_refl eq_refl eq_refl) as [Hfalsy _].
  rewrite (Hfalsy eq_refl). reflexivity.
Defined.

(** X8, run. *)
Lemma fetch_all_raises_on_unreadable_page_witness :
  exists w',
    make_paginated_pmt_request b64encode_bytes bad_body_remote 5 "p1"
      (start_world full_env)
    = Some (Raise AttributeError, w').
Proof.
  eexists.
  eapply (fetch_all_raises_on_unreadable_page b64encode_bytes bad_body_remote "p1"
            (start_world full_env) [first_page] (PStr "p2")) with (body := PList [item 2]).
  - walk_chain.
  - reflexivity.
  - do 4 eexists; repeat split; first [reflexivity | vm_compute; reflexivity].
  - reflexivity.
  - reflexivity.
  - cbn. lia.
Defined.

(** X9, run. *)
Lemma fetch_all_propagates_token_failure_witness :
  exists w',
    make_paginated_pmt_request b64encode_bytes two_pages_remote 5 "p1"
      (start_world env_no_secret)
    = Some (Raise EnvironmentError, w').
Proof.
  eexists.
  eapply (fetch_all_propagates_token_failure b64encode_bytes two_pages_remote "p1"
            (start_world env_no_secret) [] (PStr "p1")).
  - apply chain_nil.
  - reflexivity.
  - vm_compute. reflexivity.
  - cbn. lia.
Defined.

(** X10, run. *)
Lemma fetch_all_warns_iff_incomplete_witness :
  match make_paginated_pmt_request b64encode_bytes timeout_remote 5 "p1"
          (start_world full_env) with
  | Some (Ret (_, flag), w') => flag = false /\ warnings_logged w' = 1
  | _ => False
  end.
Proof.
  destruct (make_paginated_pmt_request b64encode_bytes timeout_remote 5 "p1"
              (start_world full_env)) as [[[[items flag]|e] w']|] eqn:Hrun;
    try (vm_compute in Hrun; discriminate Hrun).
  pose proof (fetch_all_warns_iff_incomplete b64encode_bytes timeout_remote 5 "p1"
                (start_world full_env) items flag w' Hrun) as Hwarn.
  assert (Hflag : flag = false) by (vm_compute in Hrun; congruence).
  subst flag. split; [reflexivity|exact Hwarn].
Defined.

(** X11, run. *)
Lemma format_list_response_layout_witness :
  format_list_response str_of_text [PStr "a"; PStr "b"] false
  = warning_line +:+ nl +:+ "--------------------"
    +:+ nl +:+ "a" +:+ nl +:+ "--------------------"
    +:+ nl +:+ "b" +:+ nl +:+ "--------------------".
Proof.
  rewrite (format_list_response_layout str_of_text [PStr "a"; PStr "b"] false);
    [reflexivity|discriminate].
Defined.

(** X12, run. *)
Lemma format_list_response_incomplete_prefix_witness :
  format_list_response str_of_text [PStr "a"] false
  = warning_line +:+ nl +:+ format_list_response str_of_text [PStr "a"] true.
Proof.
  apply (format_list_response_incomplete_prefix str_of_text [PStr "a"]).
  discriminate.
Defined.

(** X13, run. *)
Lemma tools_report_missing_configuration_witness :
  get_location b64encode_bytes str_of_text store_remote "7" (start_world env_no_account)
    = (Ret missing_configuration_text, start_world env_no_account)
  /\ get_locations b64encode_bytes str_of_text store_remote 0
       (start_world env_no_account)
     = Some (Ret missing_configuration_text, start_world env_no_account).
Proof.
  apply (tools_report_missing_configuration b64encode_bytes str_of_text store_remote
           "7" 0 (start_world env_no_account)).
  - reflexivity.
  - right. split; reflexivity.
Defined.

(** X22, run. *)
Lemma tools_raise_before_startup_witness :
  get_location b64encode_bytes str_of_text store_remote "7" (cold_world full_env)
    = (Raise NameError, cold_world full_env)
  /\ get_locations b64encode_bytes str_of_text store_remote 0 (cold_world full_env)
     = Some (Raise NameError, cold_world full_env).
Proof.
  apply (tools_raise_before_startup b64encode_bytes str_of_text store_remote
           "7" 0 (cold_world full_env)).
  reflexivity.
Defined.

(** X14, run. *)
Lemma get_location_outcomes_witness :
  fst (get_location b64encode_bytes str_of_text store_remote "8" (start_world full_env))
    = Ret "Unable to fetch location data."
  /\ fst (get_location b64encode_bytes str_of_text store_remote "9" (start_world full_env))
     = Ret "Unable to fetch location data.".
Proof.
  split.
  - destruct (get_location_outcomes b64encode_bytes str_of_text store_remote "8"
                (start_world full_env) "tok-1" _ (conj eq_refl eq_refl) eq_refl)
      as [_ Hreply].
    rewrite (Hreply 200%Z (PDict []) eq_refl eq_refl). reflexivity.
  - destruct (get_location_outcomes b64encode_bytes str_of_text store_remote "9"
                (start_world full_env) "tok-1" _ (conj eq_refl eq_refl) eq_refl)
      as [Hfail _].
    rewrite (Hfail NetworkError get_unreachable). reflexivity.
Defined.

(** X15, run. *)
Lemma tools_propagate_token_failure_witness :
  fst (get_location b64encode_bytes str_of_text store_remote "7"
         (start_world env_no_secret))
    = Raise EnvironmentError
  /\ option_map fst
       (get_locations b64encode_bytes str_of_text store_remote 1
          (start_world env_no_secret))
     = Some (Raise EnvironmentError).
Proof.
  destruct (tools_propagate_token_failure b64encode_bytes str_of_text store_remote
              "7" 0 (start_world env_no_secret) EnvironmentError _
              (conj eq_refl eq_refl) eq_refl) as [Hone Hall].
  rewrite Hone, Hall. split; reflexivity.
Defined.

(** X16, run. *)
Lemma get_locations_first_page_fails_witness :
  option_map fst
    (get_locations b64encode_bytes str_of_text slow_clock_remote 3 (start_world full_env))
  = Some (Ret "Unable to fetch location data.").
Proof.
  rewrite (get_locations_first_page_fails b64encode_bytes str_of_text slow_clock_remote 2
             (start_world full_env) PNone
             (snd (make_pmt_request b64encode_bytes slow_clock_remote
                     (PStr (locations_url (start_world full_env)))
                     (start_world full_env)))).
  - reflexivity.
  - split; reflexivity.
  - vm_compute. reflexivity.
  - reflexivity.
Defined.

(** X17, run. *)
Lemma get_locations_partial_listing_witness :
  option_map fst
    (get_locations b64encode_bytes str_of_text store_remote 5 (start_world full_env))
  = Some (Ret (warning_line +:+ nl +:+ "--------------------"
               +:+ nl +:+ "" +:+ nl +:+ "--------------------")).
Proof.
  erewrite (get_locations_partial_listing b64encode_bytes str_of_text store_remote 5
              (start_world full_env)
              [page [item 1] [("nextUrl", PStr "p2")]] (PStr "p2") _ PNone).
  - reflexivity.
  - split; reflexivity.
  - walk_chain.
  - reflexivity.
  - vm_compute. reflexivity.
  - reflexivity.
  - discriminate.
  - cbn. lia.
Defined.

(** X19, run. *)
Lemma main_startup_aborts_without_credentials_witness :
  exists w',
    main_startup b64encode_bytes two_pages_remote (cold_world env_no_secret)
      = (Raise EnvironmentError, w')
    /\ http_calls w' = []
    /\ __PMT_API_URL w' = None.
Proof.
  destruct (main_startup_aborts_without_credentials b64encode_bytes two_pages_remote
              (cold_world env_no_secret) eq_refl (or_intror eq_refl))
    as (w' & Hrun & Hcalls & Hurl & _).
  exists w'. repeat split; assumption.
Defined.

(** X20, run. *)
Lemma main_startup_sets_globals_witness :
  __PMT_API_URL
    (snd (main_startup b64encode_bytes two_pages_remote (cold_world full_env)))
    = Some "https://api.example"
  /\ __ACCOUNT_ID
       (snd (main_startup b64encode_bytes two_pages_remote (cold_world full_env)))
     = Some "acct".
Proof.
  destruct (main_startup_sets_globals b64encode_bytes two_pages_remote
              (cold_world full_env)
              (snd (main_startup b64encode_bytes two_pages_remote (cold_world full_env))))
    as (_ & Hurl & Hacct).
  - vm_compute. reflexivity.
  - rewrite Hurl, Hacct. split; reflexivity.
Defined.

(** X21, run. *)
Lemma startup_token_serves_first_request_witness :
  exists t,
    _cached_token
      (snd (main_startup b64encode_bytes store_remote (cold_world full_env))) = Some t
    /\ exchange_calls
         (snd (get_location b64encode_bytes str_of_text store_remote "7"
                 (snd (main_startup b64encode_bytes store_remote (cold_world full_env)))))
       = 1.
Proof.
  destruct (startup_token_serves_first_request b64encode_bytes str_of_text store_remote
              "7" (cold_world full_env)
              (snd (main_startup b64encode_bytes store_remote (cold_world full_env))))
    as (t & Hcache & Hcalls).
  - reflexivity.
  - vm_compute. reflexivity.
  - split; reflexivity.
  - vm_compute. reflexivity.
  - exists t. split; [exact Hcache|].
    unfold exchange_calls. rewrite Hcalls.
    rewrite List.filter_app, List.length_app. reflexivity.
Defined.

(** X5, run. *)
Lemma get_token_missing_credentials_witness :
  get_pmt_access_token_async b64encode_bytes two_pages_remote (start_world env_no_secret)
  = (Raise EnvironmentError, add_log LogEnvNotSet (tick (start_world env_no_secret))).
Proof.
  apply (get_token_missing_credentials b64encode_bytes two_pages_remote
           (start_world env_no_secret)).
  - reflexivity.
  - right. reflexivity.
Defined.

(** X6, run. *)
Lemma fetch_without_api_url_witness :
  fst (_fetch_and_store_token b64encode_bytes two_pages_remote (start_world env_no_url))
    <> Raise EnvironmentError
  /\ exists h data,
       http_calls
         (snd (_fetch_and_store_token b64encode_bytes two_pages_remote
                 (start_world env_no_url)))
       = (http_calls (start_world env_no_url) ++ [POST "None/oauth/token" h data])%list.
Proof.
  apply (fetch_without_api_url b64encode_bytes two_pages_remote (start_world env_no_url)).
  - reflexivity.
  - split; reflexivity.
Defined.

(** X18, run. *)
Lemma get_locations_never_placeholder_witness :
  match get_locations b64encode_bytes str_of_text empty_listing_remote 5
          (start_world full_env) with
  | Some (Ret text, _) => text <> "The response was empty..."
  | _ => False
  end.
Proof.
  destruct (get_locations b64encode_bytes str_of_text empty_listing_remote 5
              (start_world full_env)) as [[[text|e] w']|] eqn:Hrun;
    try (vm_compute in Hrun; discriminate Hrun).
  exact (get_locations_never_placeholder b64encode_bytes str_of_text
           empty_listing_remote 5 (start_world full_env) text w' Hrun).
Defined.

(** * Token expiry during a walk and between two walks *)

(** C2, counterexample to the claim as stated: page 1 is served with the
    cached token; at the request of page 2 the token has expired and the
    exchange is answered 503, so the request of page 2 fails on the token.
    The walk does not return the item of page 1 with the flag [False]: it
    raises. *)
Lemma fetch_all_raises_when_token_expires :
  (exists w_k,
     page_chain b64encode_bytes expiring_remote (PStr "p1") warm_world
       [first_page] (PStr "p2") w_k
     /\ fst (make_pmt_request b64encode_bytes expiring_remote (PStr "p2") w_k)
        = Raise (HTTPStatusError 503))
  /\ option_map fst
       (make_paginated_pmt_request b64encode_bytes expiring_remote 5 "p1" warm_world)
     = Some (Raise (HTTPStatusError 503)).
Proof.
  split.
  - eexists. split.
    + walk_chain.
    + vm_compute. reflexivity.
  - vm_compute. reflexivity.
Qed.

